(** * The toolpath instruction engine: G-code parser and mutation pipeline

    A shallow embedding of [window.gcodeParser] (the G-code parsing engine)
    and of the G-code modification engine of the filament module
    ([applyAndDownload] and the stages it runs), followed by the properties
    established about them.

    Conventions of the embedding.
    - A JavaScript string is a [string]: a sequence of code units.  The model
      covers code units below 256, so the white space of [trim], of [\s] and
      of [parseFloat] is the set 9-13, 32 and 160.
    - A JavaScript number is a binary64 value, [spec_float] at precision 53
      and maximal exponent 1024, with the arithmetic of the Standard
      Library's [SpecFloat] (round to nearest, ties to even).
    - An array is a [list]; array indices and lengths are [nat].
    - An object used as a dictionary is a [gmap] keyed by property name, or
      an association list where the enumeration order is observed.
    - An object with fixed properties is a record; [r <| f := v |>] is the
      record [r] with its field [f] set to [v]. *)

From stdpp Require Import gmap strings.
From Stdlib Require Import String Ascii List ZArith Lia Bool DecimalString.
From Stdlib Require Import Floats.SpecFloat.
From coqutil Require Import Datatypes.RecordSetters.
Import ListNotations.
Import TriangleBracketNotations.

Local Open Scope string_scope.
Local Open Scope list_scope.

(* ===================================================================== *)
(** * JavaScript strings *)
(* ===================================================================== *)

Module JsString.

Definition code (c : ascii) : N := N_of_ascii c.

(** White space and line terminators ([trim], [\s], [StrWhiteSpaceChar]). *)
Definition isWhiteSpace (c : ascii) : bool :=
  let n := code c in
  ((9 <=? n) && (n <=? 13) || (n =? 32) || (n =? 160))%N.

(** [\d] *)
Definition isDigit (c : ascii) : bool :=
  let n := code c in ((48 <=? n) && (n <=? 57))%N.

(** [[\d.]] *)
Definition isDigitOrDot (c : ascii) : bool :=
  isDigit c || Ascii.eqb c "."%char.

Definition isEmpty (s : string) : bool :=
  match s with EmptyString => true | String _ _ => false end.

(** [s.split(sep)] for a one-character separator. *)
Fixpoint split (sep : ascii) (s : string) : list string :=
  match s with
  | EmptyString => [EmptyString]
  | String c s' =>
      if Ascii.eqb c sep then EmptyString :: split sep s'
      else match split sep s' with
           | hd :: tl => String c hd :: tl
           | [] => [String c EmptyString]
           end
  end.

(** [a.join(sep)] for a one-character separator. *)
Fixpoint join (sep : ascii) (l : list string) : string :=
  match l with
  | [] => EmptyString
  | x :: rest =>
      match rest with
      | [] => x
      | _ :: _ => x ++ String sep (join sep rest)
      end
  end.

Fixpoint trimStart (s : string) : string :=
  match s with
  | EmptyString => EmptyString
  | String c s' => if isWhiteSpace c then trimStart s' else s
  end.

Fixpoint trimEnd (s : string) : string :=
  match s with
  | EmptyString => EmptyString
  | String c s' =>
      let r := trimEnd s' in
      if isWhiteSpace c && isEmpty r then EmptyString else String c r
  end.

Definition trim (s : string) : string := trimEnd (trimStart s).

(** [s.split(/\s+/)]: the pieces between maximal runs of white space.
    [prevWs] tells that the previous code unit belonged to a separator. *)
Fixpoint splitWsFrom (prevWs : bool) (s : string) : list string :=
  match s with
  | EmptyString => [EmptyString]
  | String c s' =>
      if isWhiteSpace c then
        if prevWs then splitWsFrom true s'
        else EmptyString :: splitWsFrom true s'
      else match splitWsFrom false s' with
           | hd :: tl => String c hd :: tl
           | [] => [String c EmptyString]
           end
  end.

Definition splitWs (s : string) : list string := splitWsFrom false s.

(** [s.startsWith(p)] *)
Definition startsWith (p s : string) : bool := String.prefix p s.

(** [s.includes(p)] *)
Fixpoint includes (p s : string) : bool :=
  String.prefix p s ||
  match s with
  | EmptyString => false
  | String _ s' => includes p s'
  end.

(** The longest prefix of [s] whose code units satisfy [p], and the rest. *)
Fixpoint span (p : ascii -> bool) (s : string) : string * string :=
  match s with
  | EmptyString => (EmptyString, EmptyString)
  | String c s' =>
      if p c then let '(a, b) := span p s' in (String c a, b)
      else (EmptyString, s)
  end.

(** ASCII upper case of a code unit, for matching under the [i] flag. *)
Definition upper (c : ascii) : ascii :=
  let n := code c in
  if ((97 <=? n) && (n <=? 122))%N then ascii_of_N (n - 32) else c.

(** [p] is a prefix of [s] up to ASCII case; returns the rest of [s]. *)
Fixpoint stripPrefixCI (p s : string) : option string :=
  match p with
  | EmptyString => Some s
  | String a p' =>
      match s with
      | EmptyString => None
      | String b s' =>
          if Ascii.eqb (upper a) (upper b) then stripPrefixCI p' s' else None
      end
  end.

Fixpoint repeatChar (c : ascii) (n : nat) : string :=
  match n with O => EmptyString | S k => String c (repeatChar c k) end.

(** Lower case of a code unit, as [toLowerCase] maps the code units
    below 256: the letters A-Z and the capital letters of Latin-1. *)
Definition lower (c : ascii) : ascii :=
  let n := code c in
  if ((65 <=? n) && (n <=? 90)
      || (192 <=? n) && (n <=? 222) && negb (n =? 215))%N
  then ascii_of_N (n + 32) else c.

(** [s.toLowerCase()] *)
Fixpoint toLowerCase (s : string) : string :=
  match s with
  | EmptyString => EmptyString
  | String c s' => String (lower c) (toLowerCase s')
  end.

(** [a.join(sep)] for a separator of any length. *)
Fixpoint joinWith (sep : string) (l : list string) : string :=
  match l with
  | [] => EmptyString
  | x :: rest =>
      match rest with
      | [] => x
      | _ :: _ => x ++ sep ++ joinWith sep rest
      end
  end.

End JsString.

(* ===================================================================== *)
(** * JavaScript numbers *)
(* ===================================================================== *)

Module JsNum.
Import JsString.
Local Open Scope Z_scope.

Definition prec : Z := 53.
Definition emax : Z := 1024.

Definition number : Type := spec_float.

#[global] Instance number_eq_dec : EqDecision number.
Proof. solve_decision. Defined.

Definition NaN : number := S754_nan.
Definition Infinity : number := S754_infinity false.
Definition zero : number := S754_zero false.

Definition add : number -> number -> number := SFadd prec emax.
Definition sub : number -> number -> number := SFsub prec emax.
Definition mul : number -> number -> number := SFmul prec emax.
Definition div : number -> number -> number := SFdiv prec emax.
Definition sqrt : number -> number := SFsqrt prec emax.
Definition abs : number -> number := SFabs.

(** [a < b], [a > b], [a === b], [a !== b] *)
Definition lt (a b : number) : bool := SFltb a b.
Definition gt (a b : number) : bool := SFltb b a.
Definition strictEq (a b : number) : bool := SFeqb a b.
Definition strictNe (a b : number) : bool := negb (SFeqb a b).

(** Truthiness of a number: neither a zero nor NaN. *)
Definition truthy (x : number) : bool :=
  match x with
  | S754_zero _ | S754_nan => false
  | _ => true
  end.

(** The equality of [Set] membership. *)
Definition sameValueZero (a b : number) : bool :=
  match a, b with
  | S754_nan, S754_nan => true
  | _, _ => SFeqb a b
  end.

Definition isNegZero (x : number) : bool :=
  match x with S754_zero true => true | _ => false end.

(** [Math.max(a, b)] and [Math.min(a, b)] *)
Definition max (a b : number) : number :=
  match SFcompare a b with
  | None => NaN
  | Some Lt => b
  | Some Gt => a
  | Some Eq => if isNegZero a then b else a
  end.

Definition min (a b : number) : number :=
  match SFcompare a b with
  | None => NaN
  | Some Lt => a
  | Some Gt => b
  | Some Eq => if isNegZero a then a else b
  end.

(** [Math.max(...l)] *)
Definition maxList (l : list number) : number :=
  fold_left max l (S754_infinity true).

(** The number nearest to an integer. *)
Definition ofZ (z : Z) : number := binary_normalize prec emax z 0 false.
Definition ofNat (n : nat) : number := ofZ (Z.of_nat n).

(** The number nearest to [(-1)^neg * m * 10^e], for [m >= 0]. *)
Definition ofDecimal (neg : bool) (m e : Z) : number :=
  match m with
  | Zpos p =>
      if 0 <=? e
      then binary_normalize prec emax (cond_Zopp neg (m * 10 ^ e)) 0 neg
      else let '(q, e', l) :=
             SFdiv_core_binary prec emax m 0 (10 ^ (- e)) 0 in
           binary_round_aux prec emax neg q e' l
  | _ => S754_zero neg
  end.

(** [Math.round(x)]: the integer nearest to [x], ties towards +Infinity. *)
Definition round (x : number) : number :=
  match x with
  | S754_finite s m e =>
      if 0 <=? e then x
      else let d := 2 ^ (- e) in
           binary_normalize prec emax
             ((2 * cond_Zopp s (Zpos m) + d) / (2 * d)) 0 s
  | _ => x
  end.

(** Truncation towards zero of a finite number (0 otherwise). *)
Definition truncZ (x : number) : Z :=
  match x with
  | S754_finite s m e =>
      cond_Zopp s (if 0 <=? e then Zpos m * 2 ^ e else Zpos m / 2 ^ (- e))
  | _ => 0
  end.

(** ** Numbers to strings *)

Definition natString (z : Z) : string :=
  NilZero.string_of_uint (N.to_uint (Z.to_N z)).

Definition numDigits (z : Z) : Z := Z.of_nat (String.length (natString z)).

(** The digits of [n] with a decimal point before the last [f] digits. *)
Definition fixedDigits (f : nat) (n : Z) : string :=
  let m := natString n in
  let k := String.length m in
  let m := (repeatChar "0" (S f - k) ++ m)%string in
  let k := String.length m in
  match f with
  | O => m
  | S _ => (String.substring 0 (k - f) m ++ "."
            ++ String.substring (k - f) f m)%string
  end.

(** [x >= 10^21] for a positive finite number [m * 2^e]. *)
Definition atLeast1e21 (m : positive) (e : Z) : bool :=
  if 0 <=? e then 10 ^ 21 <=? Zpos m * 2 ^ e
  else 10 ^ 21 * 2 ^ (- e) <=? Zpos m.

(** The decimal exponent [n] of a positive finite number:
    [10^(n-1) <= m * 2^e < 10^n]. *)
Definition decimalExponent (m : positive) (e : Z) : Z :=
  if 0 <=? e then numDigits (Zpos m * 2 ^ e)
  else let i := Zpos m / 2 ^ (- e) in
       if 0 <? i then numDigits i
       else 1 - numDigits ((2 ^ (- e) - 1) / Zpos m).

(** The candidates with [k] digits for the decimal representation of
    [x = m * 2^e]: the multiples of [10^(n-k)] next to [x] that read back
    as [x], the nearer one first. *)
Definition digitsCandidate (m : positive) (e n k : Z) : option (Z * Z) :=
  let p := n - k in
  let num := Zpos m * 2 ^ (Z.max e 0) * 10 ^ (Z.max (- p) 0) in
  let den := 2 ^ (Z.max (- e) 0) * 10 ^ (Z.max p 0) in
  let lo := num / den in
  let r := num - lo * den in
  let x := S754_finite false m e in
  let ok c := SFeqb (ofDecimal false c p) x in
  let norm c := if c =? 10 ^ k then (1, n + 1) else (c, n) in
  let okLo := ok lo in
  let okHi := negb (r =? 0) && ok (lo + 1) in
  if okLo && okHi then
    match 2 * r ?= den with
    | Lt => Some (norm lo)
    | Gt => Some (norm (lo + 1))
    | Eq => Some (norm (if Z.even lo then lo else lo + 1))
    end
  else if okLo then Some (norm lo)
  else if okHi then Some (norm (lo + 1))
  else None.

Fixpoint shortestFrom (fuel : nat) (m : positive) (e n k : Z) : Z * Z :=
  match fuel with
  | O => (Zpos m * 2 ^ (Z.max e 0), n)
  | S fuel' =>
      match digitsCandidate m e n k with
      | Some r => r
      | None => shortestFrom fuel' m e n (k + 1)
      end
  end.

(** The shortest digit string [s] and exponent [n] with
    [s * 10^(n - k)] reading back as [m * 2^e], [k] the length of [s]. *)
Definition shortest (m : positive) (e : Z) : string * Z :=
  let '(s, n) := shortestFrom 17 m e (decimalExponent m e) 1 in
  (natString s, n).

(** [Number::toString] of a positive finite number. *)
Definition formatShortest (m : positive) (e : Z) : string :=
  let '(ds, n) := shortest m e in
  let k := Z.of_nat (String.length ds) in
  if (k <=? n) && (n <=? 21) then
    (ds ++ repeatChar "0" (Z.to_nat (n - k)))%string
  else if (0 <? n) && (n <=? 21) then
    (String.substring 0 (Z.to_nat n) ds ++ "."
     ++ String.substring (Z.to_nat n) (Z.to_nat (k - n)) ds)%string
  else if (-6 <? n) && (n <=? 0) then
    ("0." ++ repeatChar "0" (Z.to_nat (- n)) ++ ds)%string
  else
    let ex := n - 1 in
    let es := ((if (ex <? 0)%Z then "-" else "+")
               ++ natString (Z.abs ex))%string in
    if k =? 1 then (ds ++ "e" ++ es)%string
    else (String.substring 0 1 ds ++ "."
          ++ String.substring 1 (Z.to_nat (k - 1)) ds ++ "e" ++ es)%string.

(** [String(x)], the conversion used by template literals and by
    property keys. *)
Definition toString (x : number) : string :=
  match x with
  | S754_nan => "NaN"
  | S754_zero _ => "0"
  | S754_infinity s => if s then "-Infinity" else "Infinity"
  | S754_finite s m e =>
      ((if s then "-" else "") ++ formatShortest m e)%string
  end.

(** [x.toFixed(f)] *)
Definition toFixed (f : nat) (x : number) : string :=
  match x with
  | S754_finite s m e =>
      if atLeast1e21 m e then toString x
      else
        let num := Zpos m * 10 ^ Z.of_nat f in
        let n := if 0 <=? e then num * 2 ^ e
                 else (2 * num + 2 ^ (- e)) / (2 * 2 ^ (- e)) in
        ((if s then "-" else "") ++ fixedDigits f n)%string
  | S754_zero _ => fixedDigits f 0
  | _ => toString x
  end.

(** ** Strings to numbers *)

Fixpoint digitsValue (acc : Z) (s : string) : Z :=
  match s with
  | EmptyString => acc
  | String c s' => digitsValue (10 * acc + (Z.of_N (code c) - 48)) s'
  end.

Definition takeSign (s : string) : bool * string :=
  match s with
  | String c s' =>
      if Ascii.eqb c "-" then (true, s')
      else if Ascii.eqb c "+" then (false, s')
      else (false, s)
  | EmptyString => (false, s)
  end.

(** The value of an [ExponentPart] at the head of [s], 0 without one. *)
Definition exponentPart (s : string) : Z :=
  match s with
  | String c s' =>
      if Ascii.eqb c "e" || Ascii.eqb c "E" then
        let '(neg, r) := takeSign s' in
        let '(ds, _) := span isDigit r in
        if isEmpty ds then 0 else cond_Zopp neg (digitsValue 0 ds)
      else 0
  | EmptyString => 0
  end.

(** [parseFloat(s)]: the value of the longest prefix of the trimmed
    string that is a decimal literal, NaN without one. *)
Definition parseFloat (s : string) : number :=
  let '(neg, r) := takeSign (trimStart s) in
  if startsWith "Infinity" r then S754_infinity neg
  else
    let '(ip, r1) := span isDigit r in
    let '(fp, r2) :=
      match r1 with
      | String c r1' =>
          if Ascii.eqb c "." then span isDigit r1' else (EmptyString, r1)
      | EmptyString => (EmptyString, r1)
      end in
    if isEmpty ip && isEmpty fp then NaN
    else ofDecimal neg (digitsValue 0 (ip ++ fp)%string)
           (exponentPart r2 - Z.of_nat (String.length fp)).

Definition hexDigit (c : ascii) : option Z :=
  let n := Z.of_N (code c) in
  if (48 <=? n) && (n <=? 57) then Some (n - 48)
  else if (97 <=? n) && (n <=? 102) then Some (n - 87)
  else if (65 <=? n) && (n <=? 70) then Some (n - 55)
  else None.

Fixpoint hexValue (acc : option Z) (s : string) : option Z :=
  match s with
  | EmptyString => acc
  | String c s' =>
      match hexDigit c with
      | Some d => hexValue (Some (16 * default 0 acc + d)) s'
      | None => acc
      end
  end.

Definition signedInteger (neg : bool) (v : Z) : number :=
  if v =? 0 then S754_zero neg else ofZ (cond_Zopp neg v).

(** [parseInt(s)] without a radix. *)
Definition parseInt (s : string) : number :=
  let '(neg, r) := takeSign (trimStart s) in
  let decimal :=
    let '(ds, _) := span isDigit r in
    if isEmpty ds then NaN else signedInteger neg (digitsValue 0 ds) in
  match r with
  | String c0 (String c1 r') =>
      if Ascii.eqb c0 "0" && (Ascii.eqb c1 "x" || Ascii.eqb c1 "X") then
        match hexValue None r' with
        | Some v => signedInteger neg v
        | None => NaN
        end
      else decimal
  | _ => decimal
  end.

(** [x || d] on numbers. *)
Definition orElse (x d : number) : number := if truthy x then x else d.

(** [Math.floor(x)] *)
Definition floor (x : number) : number :=
  match x with
  | S754_finite s m e =>
      if 0 <=? e then x
      else binary_normalize prec emax
             (cond_Zopp s (Zpos m) / 2 ^ (- e)) 0 s
  | _ => x
  end.

(** [n % d]: the remainder of the truncating division, which has the
    sign of the dividend and is always a number of the format. *)
Definition rem (n d : number) : number :=
  match n, d with
  | S754_nan, _ | _, S754_nan => NaN
  | S754_infinity _, _ => NaN
  | _, S754_zero _ => NaN
  | _, S754_infinity _ => n
  | S754_zero _, _ => n
  | S754_finite sn mn en, S754_finite _ md ed =>
      let e := Z.min en ed in
      let r := Z.rem (Zpos mn * 2 ^ (en - e)) (Zpos md * 2 ^ (ed - e)) in
      binary_normalize prec emax (cond_Zopp sn r) e sn
  end.

End JsNum.

(* ===================================================================== *)
(** * JavaScript arrays and sets *)
(* ===================================================================== *)

Module JsArray.
Import JsNum.

Section Sort.
Context {A : Type}.
Variable cmp : A -> A -> number.

(** [x] goes before the first element it does not compare greater
    than, which keeps equal elements in their order. *)
Fixpoint insertSorted (x : A) (l : list A) : list A :=
  match l with
  | [] => [x]
  | y :: l' =>
      if gt (cmp x y) zero then y :: insertSorted x l'
      else x :: y :: l'
  end.

(** [a.sort(cmp)] on a copy of the array: a stable sort. *)
Definition sort (l : list A) : list A := fold_right insertSorted [] l.
End Sort.

(** [a.splice(i, 0, ...items)] *)
Definition splice {A : Type} (i : nat) (items l : list A) : list A :=
  firstn i l ++ items ++ skipn i l.

(** [set.add(x)] on a set kept in insertion order. *)
Definition setAdd (x : number) (s : list number) : list number :=
  if existsb (sameValueZero x) s then s
  else s ++ [if isNegZero x then zero else x].

(** [a.splice(i, 1)] *)
Definition remove {A : Type} (i : nat) (l : list A) : list A :=
  firstn i l ++ skipn (S i) l.

End JsArray.

(* ===================================================================== *)
(** * The G-code parsing engine ([window.gcodeParser]) *)
(* ===================================================================== *)

Module GcodeParser.
Import JsString JsNum JsArray.

Inductive level := error | warning | info.

Record diagnostic := { lvl : level; message : string }.

Record dims := { x : number; y : number; z : number }.

(** The object [parse] returns.  [dimensions] is absent until [parse]
    assigns it, just before the warnings are computed. *)
Record result := {
  layerCount : number;
  layerHeight : number;
  firstLayerHeight : number;
  estimatedTime_min : number;
  filamentLength_mm : number;
  filamentWeight_g : number;
  maxX : number; maxY : number; maxZ : number;
  minX : number; minY : number;
  nozzleTemp : number;
  bedTemp : number;
  maxSpeed : number;
  retractionCount : number;
  retractionDistance : number;
  travelDistance : number;
  printMoves : number;
  travelMoves : number;
  warnings : list diagnostic;
  dimensions : option dims
}.

Definition num (n : Z) : number := ofZ n.

Definition initialResult : result := {|
  layerCount := num 0; layerHeight := num 0; firstLayerHeight := num 0;
  estimatedTime_min := num 0; filamentLength_mm := num 0;
  filamentWeight_g := num 0;
  maxX := num 0; maxY := num 0; maxZ := num 0;
  minX := Infinity; minY := Infinity;
  nozzleTemp := num 0; bedTemp := num 0; maxSpeed := num 0;
  retractionCount := num 0; retractionDistance := num 0;
  travelDistance := num 0; printMoves := num 0; travelMoves := num 0;
  warnings := []; dimensions := None
|}.

(** The variables of [parse] that live across the lines. *)
Record locals := {
  currentZ : number;
  lastX : number; lastY : number; lastZ : number;
  lastE : number;
  currentE : number;
  isAbsoluteE : bool;
  layerHeights : list number;
  speedValues : list number
}.

Definition initialLocals : locals := {|
  currentZ := num 0;
  lastX := num 0; lastY := num 0; lastZ := num 0;
  lastE := num 0; currentE := num 0;
  isAbsoluteE := true;
  layerHeights := []; speedValues := []
|}.

Record state := { res : result; vars : locals }.

Definition initialState : state :=
  {| res := initialResult; vars := initialLocals |}.

(** [line.match(/(\d+)/)]: the first run of digits. *)
Fixpoint matchDigits (s : string) : option string :=
  match s with
  | EmptyString => None
  | String c s' =>
      if isDigit c then Some (fst (span isDigit s)) else matchDigits s'
  end.

(** [line.match(/([\d.]+)\s*m/)]: the first run of digits and dots that
    white space and an [m] follow. *)
Fixpoint matchLength (s : string) : option string :=
  match s with
  | EmptyString => None
  | String c s' =>
      if isDigitOrDot c then
        let '(run, rest) := span isDigitOrDot s in
        match trimStart rest with
        | String d _ =>
            if Ascii.eqb d "m" then Some run else matchLength s'
        | EmptyString => matchLength s'
        end
      else matchLength s'
  end.

(** The slicer comments carrying the print time and the filament length. *)
Definition metadata (line : string) (r : result) : result :=
  let r :=
    if startsWith ";TIME:" line
       || startsWith "; estimated printing time" line
    then match matchDigits line with
         | Some m =>
             let val := parseInt m in
             if includes "TIME:" line
             then r <| estimatedTime_min := round (div val (num 60)) |>
             else r
         | None => r
         end
    else r in
  if startsWith ";Filament used:" line || startsWith "; filament used" line
  then match matchLength line with
       | Some m => r <| filamentLength_mm := mul (parseFloat m) (num 1000) |>
       | None => r
       end
  else r.

(** [params[p[0]] = parseFloat(p.substring(1))] over the tokens after the
    command code. *)
Definition readParams (parts : list string) : gmap ascii number :=
  fold_left
    (fun params p =>
       match p with
       | String c rest => <[c := parseFloat rest]> params
       | EmptyString => params
       end)
    parts ∅.

Definition isMove (code : string) : bool :=
  String.eqb code "G0" || String.eqb code "G1".

(** [parseFloat(v.toFixed(3))] *)
Definition round3 (v : number) : number := parseFloat (toFixed 3 v).

(** [if (f) speedValues.push(f / 60)] *)
Definition recordSpeed (params : gmap ascii number) (st : state) : state :=
  match params !! "F"%char with
  | Some f =>
      if truthy f
      then st <| vars -> speedValues ::= fun l => l ++ [div f (num 60)] |>
      else st
  | None => st
  end.

(** [if (z !== lastZ) { ... }] *)
Definition recordHeight (z : number) (st : state) : state :=
  if strictNe z (lastZ (vars st)) then
    let st := st <| vars -> currentZ := z |> in
    let st :=
      if gt z (num 0)
      then st <| vars -> layerHeights ::= setAdd (round3 z) |>
      else st in
    st <| res -> maxZ ::= fun m => max m z |>
  else st.

(** [if (params.X !== undefined || params.Y !== undefined) { ... }]:
    the bounding box and the classification of the move. *)
Definition recordMove (params : gmap ascii number) (x y e : number)
    (st : state) : state :=
  if bool_decide (is_Some (params !! "X"%char))
     || bool_decide (is_Some (params !! "Y"%char))
  then
    let v := vars st in
    let st := st <| res -> maxX ::= fun m => max m x |> in
    let st := st <| res -> maxY ::= fun m => max m y |> in
    let st := st <| res -> minX ::= fun m => min m x |> in
    let st := st <| res -> minY ::= fun m => min m y |> in
    let dx := sub x (lastX v) in
    let dy := sub y (lastY v) in
    let dist := sqrt (add (mul dx dx) (mul dy dy)) in
    let eChange := if isAbsoluteE v then sub e (currentE v) else e in
    if gt eChange (num 0) then
      st <| res -> printMoves ::= fun n => add n (num 1) |>
    else if lt eChange (num 0) then
      st <| res -> retractionCount ::= fun n => add n (num 1) |>
         <| res -> retractionDistance ::= fun d => add d (abs eChange) |>
    else
      st <| res -> travelMoves ::= fun n => add n (num 1) |>
         <| res -> travelDistance ::= fun d => add d dist |>
  else st.

(** [lastX = x; lastY = y; lastZ = z; if (isAbsoluteE) currentE = e] *)
Definition rememberPosition (x y z e : number) (st : state) : state :=
  let st := st <| vars -> lastX := x |> in
  let st := st <| vars -> lastY := y |> in
  let st := st <| vars -> lastZ := z |> in
  if isAbsoluteE (vars st) then st <| vars -> currentE := e |> else st.

(** The body of [if (code === 'G0' || code === 'G1')]; [(x - lastX) ** 2]
    is the product of the difference with itself. *)
Definition movement (params : gmap ascii number) (st : state) : state :=
  let v := vars st in
  let x := match params !! "X"%char with Some a => a | None => lastX v end in
  let y := match params !! "Y"%char with Some a => a | None => lastY v end in
  let z := match params !! "Z"%char with Some a => a | None => lastZ v end in
  let e := match params !! "E"%char with
           | Some a => a
           | None => if isAbsoluteE v then currentE v else num 0
           end in
  rememberPosition x y z e
    (recordMove params x y e (recordHeight z (recordSpeed params st))).

(** The statements of the loop body after the movement block. *)
Definition modesAndTemperatures
    (code : string) (params : gmap ascii number) (st : state) : state :=
  let st :=
    if String.eqb code "M82" then st <| vars -> isAbsoluteE := true |>
    else st in
  let st :=
    if String.eqb code "M83" then st <| vars -> isAbsoluteE := false |>
    else st in
  let st :=
    match params !! "E"%char with
    | Some e =>
        if String.eqb code "G92" then st <| vars -> currentE := e |> else st
    | None => st
    end in
  let s := default NaN (params !! "S"%char) in
  let st :=
    if (String.eqb code "M104" || String.eqb code "M109") && truthy s
    then st <| res -> nozzleTemp ::= fun t => max t s |>
    else st in
  if (String.eqb code "M140" || String.eqb code "M190") && truthy s
  then st <| res -> bedTemp ::= fun t => max t s |>
  else st.

(** The command code and the parameters of a line, [None] when nothing
    stands before the comment. *)
Definition command (line : string) : option (string * gmap ascii number) :=
  let cmd := trim (nth 0 (split ";" line) EmptyString) in
  if isEmpty cmd then None
  else
    let parts := splitWs cmd in
    Some (nth 0 parts EmptyString, readParams (tl parts)).

(** One iteration of the loop of [parse] over the lines. *)
Definition step (st : state) (rawLine : string) : state :=
  let line := trim rawLine in
  if isEmpty line || startsWith ";" line then
    st <| res ::= metadata line |>
  else
    match command line with
    | None => st
    | Some (code, params) =>
        let st := if isMove code then movement params st else st in
        modesAndTemperatures code params st
    end.

Definition loop (lines : list string) : state :=
  fold_left step lines initialState.

(** ** Post-processing *)

(** [counts[d] = (counts[d] || 0) + 1], the object [counts] listed in
    the order its properties were created. *)
Fixpoint bump (k : string) (counts : list (string * number))
  : list (string * number) :=
  match counts with
  | [] => [(k, add (num 0) (num 1))]
  | (k', n) :: rest =>
      if String.eqb k k' then (k', add (orElse n (num 0)) (num 1)) :: rest
      else (k', n) :: bump k rest
  end.

(** A property name that is an array index: the canonical decimal form
    of an integer below 2^32 - 1. *)
Definition isArrayIndex (k : string) : bool :=
  negb (isEmpty k)
  && isEmpty (snd (span isDigit k))
  && (String.eqb k "0" || negb (startsWith "0" k))
  && (digitsValue 0 k <=? 4294967294)%Z.

(** [Object.entries(o)]: the array indices in ascending order, then the
    other names in the order of their creation. *)
Definition entries {V : Type} (o : list (string * V)) : list (string * V) :=
  sort (fun a b => sub (num (digitsValue 0 (fst a)))
                       (num (digitsValue 0 (fst b))))
       (filter (fun kv => isArrayIndex (fst kv)) o)
  ++ filter (fun kv => negb (isArrayIndex (fst kv))) o.

(** The differences [sortedHeights[i] - sortedHeights[i - 1]] for
    [1 <= i < Math.min(sortedHeights.length, 20)], each rounded to three
    decimals. *)
Fixpoint diffsOf (n : nat) (hs : list number) : list number :=
  match n, hs with
  | S n', a :: (b :: _) as tl => round3 (sub b a) :: diffsOf n' tl
  | _, _ => []
  end.

(** The most common difference of layer heights. *)
Definition commonDiff (sortedHeights : list number) : number :=
  let diffs := diffsOf 19 sortedHeights in
  let counts := fold_left (fun c d => bump (toString d) c) diffs [] in
  let fallback := toString (ofDecimal false 2 (-1)) in
  match sort (fun a b => sub (snd b) (snd a)) (entries counts) with
  | (k, _) :: _ => parseFloat (if isEmpty k then fallback else k)
  | [] => parseFloat fallback
  end.

(** [result.warnings.push(w)] *)
Definition push (w : diagnostic) (r : result) : result :=
  r <| warnings ::= fun l => l ++ [w] |>.

(** One [if (cond) { result.warnings.push(w) }] of [_detectWarnings]. *)
Definition rule (cond : result -> bool) (w : result -> diagnostic)
    (r : result) : result :=
  if cond r then push (w r) r else r.

Definition thinDimensions (d : dims) : result -> result :=
  rule (fun _ => lt (x d) (ofDecimal false 4 (-1))
                 || lt (y d) (ofDecimal false 4 (-1)))
       (fun _ => {| lvl := warning;
                    message := "Very thin dimensions detected — may be too thin to print reliably." |}).

Definition highRetraction : result -> result :=
  rule (fun r => gt (retractionCount r) (num 5000))
       (fun r => {| lvl := warning;
                    message := "High retraction count ("
                      ++ toString (retractionCount r)
                      ++ ") — increased clogging risk." |}).

Definition longPrint : result -> result :=
  rule (fun r => gt (estimatedTime_min r) (num 600)
                 && gt (layerHeight r) (ofDecimal false 15 (-2)))
       (fun _ => {| lvl := info;
                    message := "Long print with moderate detail. Consider thicker layers to save time." |}).

Definition highNozzleTemp : result -> result :=
  rule (fun r => gt (nozzleTemp r) (num 260))
       (fun r => {| lvl := warning;
                    message := "High nozzle temperature ("
                      ++ toString (nozzleTemp r)
                      ++ "°C) — ensure all-metal hotend." |}).

Definition noHeatedBed : result -> result :=
  rule (fun r => strictEq (bedTemp r) (num 0) && gt (printMoves r) (num 100))
       (fun _ => {| lvl := error;
                    message := "No heated bed commands detected — adhesion issues likely." |}).

(** [_detectWarnings(result)]: the five rules in the order of the
    source; reading [result.dimensions.x] fails when [dimensions] is
    absent. *)
Definition _detectWarnings (r : result) : option result :=
  match dimensions r with
  | None => None
  | Some d =>
      Some (noHeatedBed
              (highNozzleTemp
                 (longPrint (highRetraction (thinDimensions d r)))))
  end.

(** [Math.PI] *)
Definition PI : number := S754_finite false 7074237752028440 (-51).

(** [layerCount], [firstLayerHeight] and [layerHeight] from the set of
    heights. *)
Definition summarizeLayers (heights : list number) (r : result) : result :=
  let sortedHeights := sort (fun a b => sub a b) heights in
  let r := r <| layerCount := ofNat (length sortedHeights) |> in
  if (2 <=? length sortedHeights)%nat then
    r <| firstLayerHeight := nth 0 sortedHeights NaN |>
      <| layerHeight := commonDiff sortedHeights |>
  else r.

(** [if (speedValues.length > 0) result.maxSpeed = ...] *)
Definition summarizeSpeed (speeds : list number) (r : result) : result :=
  match speeds with
  | [] => r
  | _ :: _ => r <| maxSpeed := round (maxList speeds) |>
  end.

(** The filament weight estimate (PLA density 1.24 g/cm3, 1.75 mm
    filament). *)
Definition estimateWeight (r : result) : result :=
  if gt (filamentLength_mm r) (num 0) then
    let rad := div (ofDecimal false 175 (-2)) (num 2) in
    let volume_mm3 := mul (mul (mul PI rad) rad) (filamentLength_mm r) in
    r <| filamentWeight_g :=
           parseFloat (toFixed 1 (div (mul volume_mm3 (ofDecimal false 124 (-2)))
                                      (num 1000))) |>
  else r.

(** [if (result.minX === Infinity) result.minX = 0], and so for [minY]. *)
Definition normalizeMinima (r : result) : result :=
  let r := if strictEq (minX r) Infinity then r <| minX := num 0 |> else r in
  if strictEq (minY r) Infinity then r <| minY := num 0 |> else r.

(** [result.dimensions = { x: ..., y: ..., z: ... }] *)
Definition measure (r : result) : result :=
  r <| dimensions := Some {|
         x := parseFloat (toFixed 1 (sub (maxX r) (minX r)));
         y := parseFloat (toFixed 1 (sub (maxY r) (minY r)));
         z := parseFloat (toFixed 1 (maxZ r)) |} |>.

(** The statements of [parse] after the loop, up to the assignment of
    [dimensions]. *)
Definition postProcess (st : state) : result :=
  measure
    (normalizeMinima
       (estimateWeight
          (summarizeSpeed (speedValues (vars st))
             (summarizeLayers (layerHeights (vars st)) (res st))))).

(** [parse(gcodeText)] *)
Definition parse (gcodeText : string) : result :=
  let r := postProcess (loop (split "010" gcodeText)) in
  match _detectWarnings r with
  | Some r' => r'
  | None => r
  end.

(** [formatTime(minutes)] *)
Definition formatTime (minutes : number) : string :=
  let hrs := floor (div minutes (num 60)) in
  let mins := rem minutes (num 60) in
  if gt hrs (num 0) then toString hrs ++ "h " ++ toString mins ++ "m"
  else toString mins ++ "m".

End GcodeParser.

(* ===================================================================== *)
(** * The G-code modification engine (filament module) *)
(* ===================================================================== *)

Module Filament.
Import JsString JsNum JsArray.

Definition num (n : Z) : JsNum.number := ofZ n.

(** ** The state the engine reads *)

Record pause := {
  layer : JsNum.number;
  command : string;
  customGcode : string
}.

Record injection := {
  mode : string;
  number : JsNum.number;
  gcode : string
}.

(** The values of the form controls, by element id. *)
Record Document := {
  gc_speed_slider : string;
  gc_temp_nozzle_offset : string;
  gc_temp_bed_offset : string;
  gc_fan_slider : string;
  gc_pp_printer : string;
  gc_eject_cool : bool;
  gc_eject_shake : bool;
  gc_eject_push : bool;
  gc_cool_target_temp : string;
  gc_cool_wait_time : string;
  gc_shake_distance : string;
  gc_shake_speed : string;
  gc_shake_reps : string;
  gc_push_distance : string;
  gc_push_speed : string
}.

(** The variables of the module and the document. *)
Record Env := {
  document : Document;
  gcodeRawText : option string;
  gcodeAnalysis : option GcodeParser.result;
  layerPauses : list pause;
  injections : list injection
}.

(** ** Line rewrites *)

(** [line.replace(/K([\d.]+)/, (match, val) => f(val))] for a letter [K],
    with the [g] flag when [global] is set.  [inMatch] tells that the
    code units being read belong to a match already replaced. *)
Fixpoint replaceParam (key : ascii) (global : bool) (f : string -> string)
    (inMatch : bool) (s : string) : string :=
  match s with
  | EmptyString => EmptyString
  | String c s' =>
      if inMatch && isDigitOrDot c then replaceParam key global f true s'
      else if inMatch && negb global then s
      else
        let run := fst (span isDigitOrDot s') in
        if Ascii.eqb c key && negb (isEmpty run)
        then (f run ++ replaceParam key global f true s')%string
        else String c (replaceParam key global f false s')
  end.

(** [line.split(';')[0].trim()] *)
Definition stripComment (line : string) : string :=
  trim (nth 0 (split ";" line) EmptyString).

(** [stripped.split(/\s+/)[0]] *)
Definition commandCode (stripped : string) : string :=
  nth 0 (splitWs stripped) EmptyString.

Definition applySpeedOverride (doc : Document) (lines : list string)
  : list string :=
  let pct := parseInt (gc_speed_slider doc) in
  if strictEq pct (num 100) then lines
  else
    let multiplier := div pct (num 100) in
    List.map
      (fun line =>
         let stripped := stripComment line in
         if isEmpty stripped then line
         else
           let cmd := commandCode stripped in
           if negb (String.eqb cmd "G0") && negb (String.eqb cmd "G1")
           then line
           else
             replaceParam "F" true
               (fun val =>
                  let newVal := round (mul (parseFloat val) multiplier) in
                  ("F" ++ toString newVal)%string)
               false line)
      lines.

Definition applyTempTweak (doc : Document) (lines : list string)
  : list string :=
  let nozzleOffset := orElse (parseInt (gc_temp_nozzle_offset doc)) (num 0) in
  let bedOffset := orElse (parseInt (gc_temp_bed_offset doc)) (num 0) in
  if strictEq nozzleOffset (num 0) && strictEq bedOffset (num 0) then lines
  else
    let shift offset val :=
      let newTemp := max (num 0) (round (add (parseFloat val) offset)) in
      ("S" ++ toString newTemp)%string in
    List.map
      (fun line =>
         let stripped := stripComment line in
         if isEmpty stripped then line
         else
           let cmd := commandCode stripped in
           if (String.eqb cmd "M104" || String.eqb cmd "M109")
              && strictNe nozzleOffset (num 0)
           then replaceParam "S" false (shift nozzleOffset) false line
           else if (String.eqb cmd "M140" || String.eqb cmd "M190")
                   && strictNe bedOffset (num 0)
           then replaceParam "S" false (shift bedOffset) false line
           else line)
      lines.

Definition applyFanOverride (doc : Document) (lines : list string)
  : list string :=
  let fanPct := parseInt (gc_fan_slider doc) in
  if strictEq fanPct (num 100) then lines
  else
    let scale := div fanPct (num 100) in
    List.map
      (fun line =>
         let stripped := stripComment line in
         if isEmpty stripped then line
         else
           let cmd := commandCode stripped in
           if negb (String.eqb cmd "M106") then line
           else
             replaceParam "S" false
               (fun val =>
                  let original := parseFloat val in
                  let newVal :=
                    min (num 255) (max (num 0) (round (mul original scale))) in
                  ("S" ++ toString newVal)%string)
               false line)
      lines.

(** ** The layer locator *)

(** [map], [currentZ] and [layerNum] of [findLayerStartLines]; a property
    of [map] is named by the string of its number. *)
Record locator := {
  map : gmap string nat;
  currentZ : JsNum.number;
  layerNum : JsNum.number
}.

Definition initialLocator : locator :=
  {| map := ∅; currentZ := num (-1); layerNum := num 0 |}.

(** [[:\s_]] *)
Definition isLayerSeparator (c : ascii) : bool :=
  Ascii.eqb c ":" || isWhiteSpace c || Ascii.eqb c "_".

(** [line.match(/^;\s*(?:LAYER|layer)[:\s_]+(\d+)/i)]: the digits
    captured. *)
Definition matchLayerComment (line : string) : option string :=
  match line with
  | String c rest =>
      if Ascii.eqb c ";" then
        match stripPrefixCI "LAYER" (trimStart rest) with
        | Some r1 =>
            let '(seps, r2) := span isLayerSeparator r1 in
            let digits := fst (span isDigit r2) in
            if isEmpty seps || isEmpty digits then None else Some digits
        | None => None
        end
      else None
  | EmptyString => None
  end.

(** [cmd.match(/K([\d.]+)/)] for a letter [K]: the run captured. *)
Fixpoint matchParam (key : ascii) (s : string) : option string :=
  match s with
  | EmptyString => None
  | String c s' =>
      let run := fst (span isDigitOrDot s') in
      if Ascii.eqb c key && negb (isEmpty run) then Some run
      else matchParam key s'
  end.

(** [if (map[n] === undefined) map[n] = i] *)
Definition recordFirst (n : JsNum.number) (i : nat) (m : gmap string nat)
  : gmap string nat :=
  match m !! toString n with
  | None => <[toString n := i]> m
  | Some _ => m
  end.

(** The body of the loop of [findLayerStartLines] at index [i]. *)
Definition locate (i : nat) (rawLine : string) (st : locator) : locator :=
  let line := trim rawLine in
  match matchLayerComment line with
  | Some digits => st <| map ::= recordFirst (parseInt digits) i |>
  | None =>
      if isEmpty line || startsWith ";" line then st
      else
        let cmd := stripComment line in
        if isEmpty cmd then st
        else
          let code := commandCode cmd in
          if String.eqb code "G0" || String.eqb code "G1" then
            match matchParam "Z" cmd with
            | Some zText =>
                let z := parseFloat zText in
                if gt z (currentZ st) then
                  let n := add (layerNum st) (num 1) in
                  st <| currentZ := z |> <| layerNum := n |>
                     <| map ::= recordFirst n i |>
                else st
            | None => st
            end
          else st
  end.

Fixpoint locateFrom (i : nat) (lines : list string) (st : locator)
  : locator :=
  match lines with
  | [] => st
  | l :: rest => locateFrom (S i) rest (locate i l st)
  end.

Definition findLayerStartLines (lines : list string) : gmap string nat :=
  map (locateFrom 0 lines initialLocator).

(** ** Insertions *)

Definition pauseBlock (p : pause) : list string :=
  [("; --- Layer Pause at Layer " ++ toString (layer p) ++ " ---")%string]
  ++ (if String.eqb (command p) "custom" && negb (isEmpty (customGcode p))
      then split "010" (customGcode p)
      else [(command p ++ " ; Pause at layer " ++ toString (layer p))%string])
  ++ ["; --- End Layer Pause ---"].

Definition applyLayerPauses (pauses : list pause) (lines : list string)
  : list string :=
  match pauses with
  | [] => lines
  | _ :: _ =>
      let layerStartLines := findLayerStartLines lines in
      let sortedPauses := sort (fun a b => sub (layer b) (layer a)) pauses in
      fold_left
        (fun lines p =>
           match layerStartLines !! toString (layer p) with
           | None => lines
           | Some insertIdx => splice insertIdx (pauseBlock p) lines
           end)
        sortedPauses lines
  end.

Definition injectionBlock (kind : string) (inj : injection) : list string :=
  [("; --- Custom Injection at " ++ kind ++ " " ++ toString (number inj)
    ++ " ---")%string]
  ++ split "010" (gcode inj)
  ++ ["; --- End Custom Injection ---"].

Definition applyInjections (injs : list injection) (lines : list string)
  : list string :=
  match injs with
  | [] => lines
  | _ :: _ =>
      let layerInjects := filter (fun i => String.eqb (mode i) "layer") injs in
      let lineInjects := filter (fun i => String.eqb (mode i) "line") injs in
      let byNumber (a b : injection) := sub (number b) (number a) in
      let lines :=
        match layerInjects with
        | [] => lines
        | _ :: _ =>
            let layerStartLines := findLayerStartLines lines in
            fold_left
              (fun lines inj =>
                 match layerStartLines !! toString (number inj) with
                 | None => lines
                 | Some insertIdx =>
                     splice insertIdx (injectionBlock "Layer" inj) lines
                 end)
              (sort byNumber layerInjects) lines
        end in
      match lineInjects with
      | [] => lines
      | _ :: _ =>
          fold_left
            (fun lines inj =>
               let insertIdx := sub (number inj) (num 1) in
               if lt insertIdx (num 0) || gt insertIdx (ofNat (length lines))
               then lines
               else splice (Z.to_nat (truncZ insertIdx))
                      (injectionBlock "Line" inj) lines)
            (sort byNumber lineInjects) lines
      end
  end.

(** ** The auto-eject sequence *)

(** The number of iterations of [for (let i = 0; i < reps; i++)], [None]
    when the loop does not end: past 2^53 the counter stops growing. *)
Definition iterations (reps : JsNum.number) : option nat :=
  if gt reps (num (2 ^ 53)) then None
  else
    match reps with
    | S754_finite s m e =>
        let v := cond_Zopp s (Zpos m) in
        Some (Z.to_nat (if (0 <=? e)%Z then v * 2 ^ e
                        else - ((- v) / 2 ^ (- e))))%Z
    | _ => Some O
    end.

Definition coolLines (doc : Document) (isBambu : bool) : list string :=
  let targetTemp :=
    toString (orElse (parseInt (gc_cool_target_temp doc)) (num 30)) in
  let waitTime :=
    toString (orElse (parseInt (gc_cool_wait_time doc)) (num 60)) in
  [ "; --- Cool & Release ---";
    "M104 S0 ; Turn off nozzle heater";
    ("M140 S" ++ targetTemp ++ " ; Set bed to target cool temperature")%string;
    "G91 ; Relative positioning";
    "G1 E-2 F1800 ; Retract filament";
    "G1 Z10 F3000 ; Lift nozzle away from print";
    "G90 ; Absolute positioning";
    if isBambu then "G28 X ; Home X axis"
    else ("G1 X0 Y" ++ toString (if isBambu then num 256 else num 220)
          ++ " F6000 ; Move to front")%string;
    ("M190 S" ++ targetTemp ++ " ; Wait for bed to cool to " ++ targetTemp
     ++ "C")%string;
    ("G4 S" ++ waitTime ++ " ; Wait " ++ waitTime
     ++ " seconds for part release")%string;
    "M140 S0 ; Turn off bed completely" ].

Definition shakeLines (doc : Document) (isBambu coolEnabled : bool)
  : option (list string) :=
  let shakeD :=
    toString (orElse (parseFloat (gc_shake_distance doc)) (num 2)) in
  let shakeF :=
    toString (orElse (parseInt (gc_shake_speed doc)) (num 3000)) in
  let shakeReps := orElse (parseInt (gc_shake_reps doc)) (num 10) in
  match iterations shakeReps with
  | None => None
  | Some n =>
      Some
        (["; --- Bed Shake ---"]
         ++ (if coolEnabled then []
             else ["G91 ; Relative positioning";
                   "G1 Z5 F3000 ; Lift nozzle first"])
         ++ ["G90 ; Absolute positioning";
             ("G1 Y" ++ toString (if isBambu then num 128 else num 110)
              ++ " F6000 ; Move to bed center Y")%string;
             "G91 ; Relative positioning"]
         ++ concat
              (repeat
                 [("G1 Y" ++ shakeD ++ " F" ++ shakeF
                   ++ " ; Shake forward")%string;
                  ("G1 Y-" ++ shakeD ++ " F" ++ shakeF
                   ++ " ; Shake backward")%string]
                 n)
         ++ ["G90 ; Absolute positioning"])
  end.

Definition pushLines (doc : Document)
    (analysis : option GcodeParser.result) : list string :=
  let pushDist := orElse (parseInt (gc_push_distance doc)) (num 30) in
  let pushSpeed :=
    toString (orElse (parseInt (gc_push_speed doc)) (num 300)) in
  ["; --- Push-Off ---"]
  ++ match analysis with
     | Some a =>
         let pushZ :=
           max (ofDecimal false 3 (-1))
               (orElse (GcodeParser.firstLayerHeight a)
                       (ofDecimal false 2 (-1))) in
         let approachX :=
           max (num 0) (sub (orElse (GcodeParser.minX a) (num 10)) (num 10)) in
         let midY :=
           match GcodeParser.dimensions a with
           | Some d =>
               toFixed 1 (add (orElse (GcodeParser.minY a) (num 0))
                              (div (GcodeParser.y d) (num 2)))
           | None => "110"
           end in
         ["G90 ; Absolute positioning";
          ("G1 Z" ++ toFixed 1 pushZ ++ " F1000 ; Lower to push height")%string;
          ("G1 X" ++ toString approachX ++ " Y" ++ midY
           ++ " F3000 ; Move to part edge")%string;
          ("G1 X" ++ toString (add approachX pushDist) ++ " F" ++ pushSpeed
           ++ " ; Push part off bed")%string]
     | None =>
         ["G90 ; Absolute positioning";
          "G1 Z0.3 F1000 ; Lower to push height";
          "G1 X10 Y110 F3000 ; Move to starting position";
          ("G1 X" ++ toString (add (num 10) pushDist) ++ " F" ++ pushSpeed
           ++ " ; Push part")%string]
     end
  ++ ["G91 ; Relative positioning";
      "G1 Z20 F3000 ; Lift nozzle after push";
      "G90 ; Absolute positioning"].

(** [applyAutoEject(lines)]; [None] when the shake loop does not end. *)
Definition applyAutoEject (env : Env) (lines : list string)
  : option (list string) :=
  let doc := document env in
  let isBambu := String.eqb (gc_pp_printer doc) "bambu_a1" in
  let coolEnabled := gc_eject_cool doc in
  let shakeEnabled := gc_eject_shake doc in
  let pushEnabled := gc_eject_push doc in
  if negb coolEnabled && negb shakeEnabled && negb pushEnabled
  then Some lines
  else
    let cool := if coolEnabled then coolLines doc isBambu else [] in
    match (if shakeEnabled then shakeLines doc isBambu coolEnabled
           else Some []) with
    | None => None
    | Some shake =>
        let push :=
          if pushEnabled then pushLines doc (gcodeAnalysis env) else [] in
        Some
          (lines
           ++ [EmptyString; "; ========== AUTO-EJECT SEQUENCE =========="]
           ++ cool ++ shake ++ push
           ++ ["; --- Cleanup ---"]
           ++ (if coolEnabled then []
               else ["M104 S0 ; Turn off nozzle"; "M140 S0 ; Turn off bed"])
           ++ ["M107 ; Turn off fan";
               "M84 ; Disable steppers";
               "; ========== END AUTO-EJECT SEQUENCE =========="])
    end.

(** ** The pipeline *)

(** What [applyAndDownload] hands to the save dialog. *)
Inductive outcome :=
| NoFile                           (* [if (!gcodeRawText) return] *)
| Diverges                         (* the shake loop does not end *)
| Modified (modifiedText : string).

Definition applyAndDownload (env : Env) : outcome :=
  match gcodeRawText env with
  | None => NoFile
  | Some text =>
      if isEmpty text then NoFile
      else
        let doc := document env in
        let lines := split "010" text in
        let lines := applySpeedOverride doc lines in
        let lines := applyTempTweak doc lines in
        let lines := applyFanOverride doc lines in
        let lines := applyLayerPauses (layerPauses env) lines in
        let lines := applyInjections (injections env) lines in
        match applyAutoEject env lines with
        | None => Diverges
        | Some lines => Modified (join "010" lines)
        end
  end.

(** ** The loaded file and the lists of directives *)

(** The variables of the module when it starts. *)
Definition initialEnv (doc : Document) : Env := {|
  document := doc;
  gcodeRawText := None;
  gcodeAnalysis := None;
  layerPauses := [];
  injections := []
|}.

Definition loadGcodeContent (text : string) (env : Env) : Env :=
  env <| gcodeRawText := Some text |>
      <| gcodeAnalysis := Some (GcodeParser.parse text) |>
      <| layerPauses := [] |>
      <| injections := [] |>.

Definition clearLoadedFile (env : Env) : Env :=
  env <| gcodeRawText := None |>
      <| gcodeAnalysis := None |>
      <| layerPauses := [] |>
      <| injections := [] |>.

(** The values of the controls [addLayerPause] reads and resets. *)
Record PauseControls := {
  gc_pause_layer : string;
  gc_pause_command : string;
  gc_pause_custom_gcode : string
}.

Definition addLayerPause (form : PauseControls) (env : Env)
  : PauseControls * Env :=
  let layerValue := parseInt (gc_pause_layer form) in
  if negb (truthy layerValue) || lt layerValue (num 1) then (form, env)
  else
    let isCustom := String.eqb (gc_pause_command form) "custom" in
    let pause := {|
      layer := layerValue;
      command := if isCustom then "custom" else gc_pause_command form;
      customGcode :=
        if isCustom then trim (gc_pause_custom_gcode form) else EmptyString
    |} in
    (form <| gc_pause_layer := EmptyString |>
          <| gc_pause_custom_gcode := EmptyString |>,
     env <| layerPauses :=
              sort (fun a b => sub (layer a) (layer b))
                   (layerPauses env ++ [pause]) |>).

(** The handler of the remove button of the pause at index [idx]:
    [layerPauses.splice(idx, 1)]. *)
Definition removeLayerPause (idx : nat) (env : Env) : Env :=
  env <| layerPauses ::= remove idx |>.

(** The values of the controls [addInjection] reads and resets. *)
Record InjectionControls := {
  gc_inject_mode : string;
  gc_inject_number : string;
  gc_inject_gcode : string
}.

Definition addInjection (form : InjectionControls) (env : Env)
  : InjectionControls * Env :=
  let numberValue := parseInt (gc_inject_number form) in
  let gcodeValue := trim (gc_inject_gcode form) in
  if negb (truthy numberValue) || lt numberValue (num 1)
     || isEmpty gcodeValue
  then (form, env)
  else
    (form <| gc_inject_number := EmptyString |>
          <| gc_inject_gcode := EmptyString |>,
     env <| injections ::=
              fun l => l ++ [{| mode := gc_inject_mode form;
                                number := numberValue;
                                gcode := gcodeValue |}] |>).

(** The handler of the remove button of the injection at index [idx]:
    [injections.splice(idx, 1)]. *)
Definition removeInjection (idx : nat) (env : Env) : Env :=
  env <| injections ::= remove idx |>.

(** The array [parts] of [updateModSummary]. *)
Definition summaryParts (env : Env) : list string :=
  let doc := document env in
  let speedVal := parseInt (gc_speed_slider doc) in
  let nozzleOff := orElse (parseInt (gc_temp_nozzle_offset doc)) (num 0) in
  let bedOff := orElse (parseInt (gc_temp_bed_offset doc)) (num 0) in
  let fanVal := parseInt (gc_fan_slider doc) in
  (if gc_eject_cool doc then ["Cool & Release"] else [])
  ++ (if gc_eject_shake doc then ["Bed Shake"] else [])
  ++ (if gc_eject_push doc then ["Push-Off"] else [])
  ++ (if (0 <? length (layerPauses env))%nat
      then [(toString (ofNat (length (layerPauses env)))
             ++ " pause(s)")%string]
      else [])
  ++ (if strictNe speedVal (num 100)
      then [("Speed " ++ toString speedVal ++ "%")%string] else [])
  ++ (if strictNe nozzleOff (num 0) || strictNe bedOff (num 0)
      then ["Temp tweak"] else [])
  ++ (if strictNe fanVal (num 100)
      then [("Fan " ++ toString fanVal ++ "%")%string] else [])
  ++ (if (0 <? length (injections env))%nat
      then [(toString (ofNat (length (injections env)))
             ++ " injection(s)")%string]
      else []).

(** [updateModSummary()]: the text it gives the summary element. *)
Definition updateModSummary (env : Env) : string :=
  let parts := summaryParts env in
  if (0 <? length parts)%nat then joinWith " + " parts
  else "No modifications configured".

End Filament.

(* ===================================================================== *)
(** * The filament inventory (filament module): helpers *)
(* ===================================================================== *)

Module Inventory.
Import JsString JsNum JsArray.

(** [getDifficultyClass(difficulty)]; [None] is a material without the
    property. *)
Definition getDifficultyClass (difficulty : option string) : string :=
  match difficulty with
  | None => EmptyString
  | Some difficulty =>
      if isEmpty difficulty then EmptyString
      else
        let d := toLowerCase difficulty in
        if String.eqb d "easy" then "fil-mat-difficulty-easy"
        else if includes "moderate" d || includes "hard" d
        then "fil-mat-difficulty-moderate"
        else if String.eqb d "hard" then "fil-mat-difficulty-hard"
        else if String.eqb d "expert" then "fil-mat-difficulty-expert"
        else EmptyString
  end.

(** [getProgressClass(pct)] *)
Definition getProgressClass (pct : number) : string :=
  if gt pct (ofZ 50) then "fil-progress-good"
  else if gt pct (ofZ 25) then "fil-progress-mid"
  else if gt pct (ofZ 10) then "fil-progress-low"
  else "fil-progress-critical".

End Inventory.

(* ===================================================================== *)
(** * Notions used to state the properties *)
(* ===================================================================== *)

Module Spec.
Import JsString JsNum JsArray.

(** ** Directives *)

(** The empty directive set: both scales at 100%, both offsets 0, no
    pause, no injection, no eject block enabled. *)
Definition noDirectives (env : Filament.Env) : Prop :=
  let doc := Filament.document env in
  strictEq (parseInt (Filament.gc_speed_slider doc)) (ofZ 100) = true
  /\ strictEq (parseInt (Filament.gc_fan_slider doc)) (ofZ 100) = true
  /\ strictEq (orElse (parseInt (Filament.gc_temp_nozzle_offset doc)) (ofZ 0))
              (ofZ 0) = true
  /\ strictEq (orElse (parseInt (Filament.gc_temp_bed_offset doc)) (ofZ 0))
              (ofZ 0) = true
  /\ Filament.layerPauses env = []
  /\ Filament.injections env = []
  /\ Filament.gc_eject_cool doc = false
  /\ Filament.gc_eject_shake doc = false
  /\ Filament.gc_eject_push doc = false.

(** A document with every control at its neutral value. *)
Definition neutralDocument : Filament.Document := {|
  Filament.gc_speed_slider := "100";
  Filament.gc_temp_nozzle_offset := "0";
  Filament.gc_temp_bed_offset := "0";
  Filament.gc_fan_slider := "100";
  Filament.gc_pp_printer := "ender3";
  Filament.gc_eject_cool := false;
  Filament.gc_eject_shake := false;
  Filament.gc_eject_push := false;
  Filament.gc_cool_target_temp := "30";
  Filament.gc_cool_wait_time := "60";
  Filament.gc_shake_distance := "2";
  Filament.gc_shake_speed := "3000";
  Filament.gc_shake_reps := "10";
  Filament.gc_push_distance := "30";
  Filament.gc_push_speed := "300"
|}.

(** The module after loading [text], before any directive is added. *)
Definition loaded (text : string) : Filament.Env := {|
  Filament.document := neutralDocument;
  Filament.gcodeRawText := Some text;
  Filament.gcodeAnalysis := Some (GcodeParser.parse text);
  Filament.layerPauses := [];
  Filament.injections := []
|}.

(** ** Feed rates *)

Fixpoint allChars (p : ascii -> bool) (s : string) : bool :=
  match s with
  | EmptyString => true
  | String c s' => p c && allChars p s'
  end.

(** The text of a parameter value: digits and dots, at least one. *)
Definition isValueText (val : string) : bool :=
  negb (isEmpty val) && allChars isDigitOrDot val.

(** What follows a parameter value: no further digit or dot. *)
Definition endsValue (post : string) : bool :=
  match post with
  | EmptyString => true
  | String c _ => negb (isDigitOrDot c)
  end.

(** One half, 0.5. *)
Definition half : number := ofDecimal false 5 (-1).

(** The text of a feed-rate parameter at half the value [val] reads as,
    rounded to the nearest integer. *)
Definition halvedFeed (val : string) : string :=
  ("F" ++ toString (round (mul (parseFloat val) half)))%string.

(** A text with each of its feed-rate parameters halved. *)
Definition halveFeeds (s : string) : string :=
  Filament.replaceParam "F" true halvedFeed false s.

(** ** Lines of the parser *)

(** The command code and the parameters the parser reads on a line,
    [None] on a blank line and on a comment. *)
Definition commandOf (rawLine : string)
  : option (string * gmap ascii number) :=
  let line := trim rawLine in
  if isEmpty line || startsWith ";" line then None
  else GcodeParser.command line.

(** The extrusion delta of a motion line read with the registers [v]:
    in absolute mode the distance from the current extrusion value to the
    commanded one (to itself without an [E] parameter), in relative mode
    the commanded value (0 without an [E] parameter). *)
Definition extrusionDelta (v : GcodeParser.locals)
    (params : gmap ascii number) : number :=
  match params !! "E"%char with
  | Some e =>
      if GcodeParser.isAbsoluteE v then sub e (GcodeParser.currentE v) else e
  | None =>
      if GcodeParser.isAbsoluteE v
      then sub (GcodeParser.currentE v) (GcodeParser.currentE v)
      else ofZ 0
  end.

(** ** Diagnostics *)


Definition isError (w : GcodeParser.diagnostic) : bool :=
  match GcodeParser.lvl w with
  | GcodeParser.error => true
  | _ => false
  end.

(** The warning list holds an error-level entry. *)
Definition errorLevel (ws : list GcodeParser.diagnostic) : bool :=
  existsb isError ws.

(** The error-level diagnostic of the rule on the heated bed. *)
Definition noHeatedBedError : GcodeParser.diagnostic := {|
  GcodeParser.lvl := GcodeParser.error;
  GcodeParser.message :=
    "No heated bed commands detected — adhesion issues likely."
|}.



(** The fields the rule on the heated bed reads, and the warnings. *)
Definition bedFields (r : GcodeParser.result) :=
  (GcodeParser.bedTemp r, GcodeParser.printMoves r, GcodeParser.warnings r).

(** The fields derived from the layer heights. *)
Definition layerFields (r : GcodeParser.result) :=
  (GcodeParser.layerCount r, GcodeParser.firstLayerHeight r,
   GcodeParser.layerHeight r).


Definition isNaN (x : number) : bool :=
  match x with S754_nan => true | _ => false end.


(** ** Layer heights *)


(** The distinct values of a list, as a set of numbers keeps them. *)
Definition distinct (l : list number) : list number :=
  fold_left (fun s v => setAdd v s) l [].





(** ** The most common difference *)








(** ** Motion commands and temperatures *)

(** A motion command: its command code is G0 or G1. *)
Definition motionCommand (rawLine : string) : bool :=
  match commandOf rawLine with
  | Some (code, _) => GcodeParser.isMove code
  | None => false
  end.

(** A motion command with an X or a Y parameter. *)
Definition planarMove (rawLine : string) : bool :=
  match commandOf rawLine with
  | Some (code, params) =>
      GcodeParser.isMove code
      && (bool_decide (is_Some (params !! "X"%char))
          || bool_decide (is_Some (params !! "Y"%char)))
  | None => false
  end.

(** The three counters a planar move is classified into. *)
Definition counters (r : GcodeParser.result) :=
  (GcodeParser.printMoves r, GcodeParser.retractionCount r,
   GcodeParser.travelMoves r).

(** The S values of the commands of a stream whose code is among
    [codes], those that are 0 or no number left out. *)
Fixpoint targets (codes : list string) (lines : list string)
  : list number :=
  match lines with
  | [] => []
  | l :: rest =>
      match commandOf l with
      | Some (code, params) =>
          let s := default NaN (params !! "S"%char) in
          if existsb (String.eqb code) codes && truthy s
          then s :: targets codes rest
          else targets codes rest
      | None => targets codes rest
      end
  end.

(** What the motion commands write: the bounding box, the counters and
    distances, the set of heights and the list of speeds. *)
Definition motionFields (st : GcodeParser.state) :=
  let r := GcodeParser.res st in
  let v := GcodeParser.vars st in
  (GcodeParser.maxX r, GcodeParser.maxY r, GcodeParser.maxZ r,
   GcodeParser.minX r, GcodeParser.minY r,
   (GcodeParser.retractionCount r, GcodeParser.retractionDistance r,
    GcodeParser.travelDistance r, GcodeParser.printMoves r,
    GcodeParser.travelMoves r),
   (GcodeParser.layerHeights v, GcodeParser.speedValues v)).

(** The diagnostic of the rule on thin dimensions. *)
Definition thinDimensionsWarning : GcodeParser.diagnostic := {|
  GcodeParser.lvl := GcodeParser.warning;
  GcodeParser.message :=
    "Very thin dimensions detected — may be too thin to print reliably."
|}.


(** The distance in the XY plane a motion line covers, read with the
    registers [v]: a coordinate without parameter stays where it was. *)
Definition planarDistance (v : GcodeParser.locals)
    (params : gmap ascii number) : number :=
  let x := default (GcodeParser.lastX v) (params !! "X"%char) in
  let y := default (GcodeParser.lastY v) (params !! "Y"%char) in
  let dx := sub x (GcodeParser.lastX v) in
  let dy := sub y (GcodeParser.lastY v) in
  sqrt (add (mul dx dx) (mul dy dy)).

(** The counters and the distances of the classification of moves. *)
Definition moveFields (r : GcodeParser.result) :=
  (GcodeParser.printMoves r, GcodeParser.retractionCount r,
   GcodeParser.retractionDistance r, GcodeParser.travelMoves r,
   GcodeParser.travelDistance r).


(** ** Small integers *)

(** The number of a non-zero integer of magnitude below 2^53, written
    out: its sign, its mantissa of 53 bits and its exponent. *)
Definition ofSmall (z : Z) : number :=
  S754_finite (z <? 0)%Z
    (Z.to_pos (Z.abs z * 2 ^ (52 - Z.log2 (Z.abs z))))
    (Z.log2 (Z.abs z) - 52).


(** The fields of the result that only the loop over the lines writes,
    the bounds [minX] and [minY] apart. *)
Definition loopFields (r : GcodeParser.result) :=
  (GcodeParser.estimatedTime_min r, GcodeParser.filamentLength_mm r,
   (GcodeParser.maxX r, GcodeParser.maxY r, GcodeParser.maxZ r),
   (GcodeParser.nozzleTemp r, GcodeParser.bedTemp r),
   moveFields r).

End Spec.

(* ===================================================================== *)
(** * Properties *)
(* ===================================================================== *)

Import JsString JsNum JsArray.

(** ** Strings *)

Lemma split_nonempty (sep : ascii) (s : string) : split sep s <> [].
Proof.
  destruct s as [|c s]; simpl; [discriminate|].
  destruct (Ascii.eqb c sep); [discriminate|].
  destruct (split sep s); discriminate.
Qed.

Lemma join_cons_char (sep c : ascii) (hd : string) (tl : list string) :
  join sep (String c hd :: tl) = String c (join sep (hd :: tl)).
Proof. destruct tl; reflexivity. Qed.

Lemma join_split (sep : ascii) (s : string) : join sep (split sep s) = s.
Proof.
  induction s as [|c s IH]; simpl; [reflexivity|].
  destruct (Ascii.eqb_spec c sep) as [->|Hne].
  - pose proof (split_nonempty sep s) as Hne.
    destruct (split sep s) as [|hd tl]; [contradiction|].
    simpl in *. now rewrite IH.
  - pose proof (split_nonempty sep s) as Hs.
    destruct (split sep s) as [|hd tl]; [contradiction|].
    rewrite join_cons_char. now rewrite IH.
Qed.

Lemma isEmpty_true (s : string) : isEmpty s = true -> s = EmptyString.
Proof. destruct s; [reflexivity | discriminate]. Qed.

Lemma isEmpty_false (s : string) : s <> EmptyString -> isEmpty s = false.
Proof. destruct s; [contradiction | reflexivity]. Qed.

(** ** The pipeline without directives *)

Lemma applyAndDownload_noDirectives (env : Filament.Env) (text : string) :
  Filament.gcodeRawText env = Some text ->
  Spec.noDirectives env ->
  Filament.applyAndDownload env
  = if isEmpty text then Filament.NoFile else Filament.Modified text.
Proof.
  intros Htext (Hs & Hf & Hn & Hb & Hp & Hi & Hc & Hk & Hu).
  unfold Filament.applyAndDownload. rewrite Htext.
  destruct (isEmpty text); [reflexivity|].
  unfold Filament.applySpeedOverride, Filament.applyTempTweak,
    Filament.applyFanOverride, Filament.applyAutoEject, Filament.num.
  rewrite Hs, Hf, Hn, Hb, Hp, Hi, Hc, Hk, Hu. simpl.
  now rewrite join_split.
Qed.

(** C1 (as amended): for every non-empty input text, the mutation pipeline
    run with the empty directive set (both scales at 100%, both offsets 0,
    no pause, no injection, no eject block) hands out a text equal to the
    input text. *)
Theorem mutate_identity (env : Filament.Env) (text : string) :
  Filament.gcodeRawText env = Some text ->
  text <> EmptyString ->
  Spec.noDirectives env ->
  Filament.applyAndDownload env = Filament.Modified text.
Proof.
  intros Htext Hne Hnone.
  rewrite (applyAndDownload_noDirectives env text Htext Hnone).
  now rewrite (isEmpty_false text Hne).
Qed.

Lemma mutate_identity_witness :
  Spec.noDirectives (Spec.loaded "G1 X10 F1500")
  /\ Filament.applyAndDownload (Spec.loaded "G1 X10 F1500")
     = Filament.Modified "G1 X10 F1500".
Proof.
  assert (H : Spec.noDirectives (Spec.loaded "G1 X10 F1500"))
    by (repeat split; vm_compute; reflexivity).
  split; [exact H|].
  apply (mutate_identity (Spec.loaded "G1 X10 F1500") "G1 X10 F1500").
  - reflexivity.
  - discriminate.
  - exact H.
Defined.

(** C1 as stated fails on the empty text: [applyAndDownload] returns at
    its guard [if (!gcodeRawText) return] and hands out nothing. *)
Lemma mutate_identity_empty_text :
  Spec.noDirectives (Spec.loaded EmptyString)
  /\ Filament.applyAndDownload (Spec.loaded EmptyString)
     <> Filament.Modified EmptyString.
Proof.
  split.
  - repeat split; vm_compute; reflexivity.
  - vm_compute. discriminate.
Qed.

(** ** Layer pauses in either order *)

(** C2: for every pair of layer-pause directives at layers 5 and 2, the
    pipeline hands out the same text whichever of the two is supplied
    first: [applyLayerPauses] sorts its pauses by layer number, descending,
    before it splices, and both orders sort to the same list. *)
Theorem pauses_order_irrelevant (p5 p2 : Filament.pause) :
  Filament.layer p5 = ofZ 5 ->
  Filament.layer p2 = ofZ 2 ->
  let byLayer (a b : Filament.pause) :=
    sub (Filament.layer b) (Filament.layer a) in
  sort byLayer [p5; p2] = [p5; p2]
  /\ sort byLayer [p2; p5] = [p5; p2]
  /\ (forall lines,
        Filament.applyLayerPauses [p5; p2] lines
        = Filament.applyLayerPauses [p2; p5] lines)
  /\ (forall env,
        Filament.applyAndDownload (env <| Filament.layerPauses := [p5; p2] |>)
        = Filament.applyAndDownload (env <| Filament.layerPauses := [p2; p5] |>)).
Proof.
  intros H5 H2 byLayer.
  assert (E1 : sort byLayer [p5; p2] = [p5; p2]).
  { unfold sort, byLayer; simpl. rewrite H5, H2. reflexivity. }
  assert (E2 : sort byLayer [p2; p5] = [p5; p2]).
  { unfold sort, byLayer; simpl. rewrite H5, H2. reflexivity. }
  assert (E3 : forall lines,
             Filament.applyLayerPauses [p5; p2] lines
             = Filament.applyLayerPauses [p2; p5] lines).
  { intros lines. unfold Filament.applyLayerPauses.
    fold byLayer. now rewrite E1, E2. }
  repeat split; try assumption.
  intros [doc raw analysis pauses injs].
  unfold Filament.applyAndDownload, Filament.applyAutoEject.
  cbn [apply_update constant Filament.gcodeRawText Filament.document
       Filament.layerPauses Filament.injections Filament.gcodeAnalysis].
  destruct raw as [text|]; [|reflexivity].
  destruct (isEmpty text); [reflexivity|].
  now rewrite E3.
Qed.

Lemma pauses_order_irrelevant_witness :
  let p5 := {| Filament.layer := ofZ 5; Filament.command := "M0";
               Filament.customGcode := EmptyString |} in
  let p2 := {| Filament.layer := ofZ 2; Filament.command := "custom";
               Filament.customGcode := "M300 S440" |} in
  let lines := ["G1 Z0.2"; "G1 Z0.4"; "G1 Z0.6"; "G1 Z0.8"; "G1 Z1.0"] in
  Filament.layer p5 = ofZ 5 /\ Filament.layer p2 = ofZ 2
  /\ Filament.applyLayerPauses [p5; p2] lines
     = Filament.applyLayerPauses [p2; p5] lines.
Proof.
  intros p5 p2 lines.
  split; [reflexivity|]. split; [reflexivity|].
  exact (proj1 (proj2 (proj2
           (pauses_order_irrelevant p5 p2 eq_refl eq_refl))) lines).
Defined.

(** ** The line rewrites keep the frame *)

Lemma lookup_map {A B : Type} (f : A -> B) (l : list A) (i : nat) :
  List.map f l !! i = f <$> (l !! i).
Proof.
  revert i; induction l as [|a l IH]; intros [|i]; simpl; auto.
Qed.

Lemma eqb_not_in (code : string) (targets : list string) :
  ~ In code targets -> forallb (fun t => negb (String.eqb code t)) targets = true.
Proof.
  induction targets as [|t ts IH]; simpl; [reflexivity|].
  intros Hn. apply andb_true_iff; split.
  - apply negb_true_iff, String.eqb_neq. intros ->. apply Hn; now left.
  - apply IH. intros Hin. apply Hn; now right.
Qed.

Section Frame.
Variable doc : Filament.Document.
Variable lines : list string.

Lemma applySpeedOverride_length :
  length (Filament.applySpeedOverride doc lines) = length lines.
Proof.
  unfold Filament.applySpeedOverride.
  destruct (strictEq _ _); [reflexivity | apply length_map].
Qed.

Lemma applyTempTweak_length :
  length (Filament.applyTempTweak doc lines) = length lines.
Proof.
  unfold Filament.applyTempTweak.
  destruct (_ && _); [reflexivity | apply length_map].
Qed.

Lemma applyFanOverride_length :
  length (Filament.applyFanOverride doc lines) = length lines.
Proof.
  unfold Filament.applyFanOverride.
  destruct (strictEq _ _); [reflexivity | apply length_map].
Qed.

Variable i : nat.
Variable line : string.
Hypothesis Hline : lines !! i = Some line.

Let code := Filament.commandCode (Filament.stripComment line).

Lemma applySpeedOverride_other :
  ~ In code ["G0"; "G1"] ->
  Filament.applySpeedOverride doc lines !! i = Some line.
Proof.
  intros Hn. apply eqb_not_in in Hn. simpl in Hn.
  apply andb_true_iff in Hn as [H0 Hn].
  apply andb_true_iff in Hn as [H1 _].
  unfold Filament.applySpeedOverride.
  destruct (strictEq _ _); [exact Hline|].
  rewrite lookup_map, Hline. simpl. f_equal.
  destruct (isEmpty _); [reflexivity|].
  fold code. now rewrite H0, H1.
Qed.

Lemma applyTempTweak_other :
  ~ In code ["M104"; "M109"; "M140"; "M190"] ->
  Filament.applyTempTweak doc lines !! i = Some line.
Proof.
  intros Hn. apply eqb_not_in in Hn. simpl in Hn.
  apply andb_true_iff in Hn as [H0 Hn].
  apply andb_true_iff in Hn as [H1 Hn].
  apply andb_true_iff in Hn as [H2 Hn].
  apply andb_true_iff in Hn as [H3 _].
  apply negb_true_iff in H0, H1, H2, H3.
  unfold Filament.applyTempTweak.
  destruct (_ && _); [exact Hline|].
  rewrite lookup_map, Hline. simpl. f_equal.
  destruct (isEmpty _); [reflexivity|].
  fold code. now rewrite H0, H1, H2, H3.
Qed.

Lemma applyFanOverride_other :
  ~ In code ["M106"] ->
  Filament.applyFanOverride doc lines !! i = Some line.
Proof.
  intros Hn. apply eqb_not_in in Hn. simpl in Hn.
  apply andb_true_iff in Hn as [H0 _].
  unfold Filament.applyFanOverride.
  destruct (strictEq _ _); [exact Hline|].
  rewrite lookup_map, Hline. simpl. f_equal.
  destruct (isEmpty _); [reflexivity|].
  fold code. now rewrite H0.
Qed.
End Frame.

(** C7: each of the three line rewrites (speed scale, nozzle and bed
    temperature offset, fan scale) returns as many lines as it is given,
    whatever the text and the settings, and returns unchanged every line
    whose command code is not one of those it targets (G0 and G1; M104,
    M109, M140 and M190; M106). *)
Theorem rewrites_keep_frame (doc : Filament.Document) (lines : list string) :
  length (Filament.applySpeedOverride doc lines) = length lines
  /\ length (Filament.applyTempTweak doc lines) = length lines
  /\ length (Filament.applyFanOverride doc lines) = length lines
  /\ forall (i : nat) (line : string),
       lines !! i = Some line ->
       let code := Filament.commandCode (Filament.stripComment line) in
       (~ In code ["G0"; "G1"] ->
        Filament.applySpeedOverride doc lines !! i = Some line)
       /\ (~ In code ["M104"; "M109"; "M140"; "M190"] ->
           Filament.applyTempTweak doc lines !! i = Some line)
       /\ (~ In code ["M106"] ->
           Filament.applyFanOverride doc lines !! i = Some line).
Proof.
  split; [apply applySpeedOverride_length|].
  split; [apply applyTempTweak_length|].
  split; [apply applyFanOverride_length|].
  intros i line Hline code. repeat split.
  - now apply applySpeedOverride_other.
  - now apply applyTempTweak_other.
  - now apply applyFanOverride_other.
Qed.

(** ** The layer locator: first match wins *)

Lemma recordFirst_keeps (n : number) (i : nat) (m : gmap string nat)
    (k : string) (idx : nat) :
  m !! k = Some idx -> Filament.recordFirst n i m !! k = Some idx.
Proof.
  intros Hk. unfold Filament.recordFirst.
  destruct (m !! toString n) eqn:Hn; [exact Hk|].
  rewrite lookup_insert_ne; [exact Hk|].
  intros E. rewrite E in Hn. congruence.
Qed.

Lemma locate_keeps (i : nat) (rawLine : string) (st : Filament.locator)
    (k : string) (idx : nat) :
  Filament.map st !! k = Some idx ->
  Filament.map (Filament.locate i rawLine st) !! k = Some idx.
Proof.
  intros Hk. unfold Filament.locate.
  destruct (Filament.matchLayerComment _).
  { cbn. now apply recordFirst_keeps. }
  destruct (_ || _); [exact Hk|].
  destruct (isEmpty _); [exact Hk|].
  destruct (_ || _); [|exact Hk].
  destruct (Filament.matchParam _ _); [|exact Hk].
  destruct (gt _ _); [|exact Hk].
  cbn. now apply recordFirst_keeps.
Qed.

Lemma locateFrom_keeps (lines : list string) :
  forall (i : nat) (st : Filament.locator) (k : string) (idx : nat),
    Filament.map st !! k = Some idx ->
    Filament.map (Filament.locateFrom i lines st) !! k = Some idx.
Proof.
  induction lines as [|l lines IH]; intros i st k idx Hk; simpl.
  - exact Hk.
  - apply IH. now apply locate_keeps.
Qed.

Lemma locateFrom_app (pre post : list string) :
  forall (i : nat) (st : Filament.locator),
    Filament.locateFrom i (pre ++ post) st
    = Filament.locateFrom (i + length pre) post (Filament.locateFrom i pre st).
Proof.
  induction pre as [|l pre IH]; intros i st; simpl.
  - now rewrite Nat.add_0_r.
  - rewrite IH. f_equal. lia.
Qed.

(** C6: the map of the layer locator is first-match-wins.  Once the lines
    read so far map a layer number to a line index, the map built from any
    longer line sequence has the same index for that number: neither a later
    layer annotation nor a later Z crossing overwrites it. *)
Theorem first_match_wins (pre post : list string) (n : number) (idx : nat) :
  Filament.findLayerStartLines pre !! toString n = Some idx ->
  Filament.findLayerStartLines (pre ++ post) !! toString n = Some idx.
Proof.
  unfold Filament.findLayerStartLines. intros Hk.
  rewrite locateFrom_app. now apply locateFrom_keeps.
Qed.

Lemma first_match_wins_witness :
  let pre := ["G1 Z0.2"; ";LAYER:5"; "G1 Z0.4"] in
  let post := [";LAYER:5"; "G1 Z0.1"; "G1 Z0.3"; ";layer 2"; "G1 Z0.6"] in
  Filament.findLayerStartLines pre !! toString (ofZ 2) = Some 2%nat
  /\ Filament.findLayerStartLines (pre ++ post) !! toString (ofZ 2) = Some 2%nat.
Proof.
  intros pre post.
  assert (H : Filament.findLayerStartLines pre !! toString (ofZ 2) = Some 2%nat)
    by (vm_compute; reflexivity).
  split; [exact H|].
  exact (first_match_wins pre post (ofZ 2) 2%nat H).
Defined.

(** ** Numbers: signs and comparisons *)

Lemma binary_round_aux_not_negative (mx ex : Z) (lx : location) :
  SFltb (binary_round_aux prec emax false mx ex lx) zero = false.
Proof.
  unfold binary_round_aux.
  destruct (shr_fexp prec emax mx ex lx) as [mrs' e'].
  destruct (shr_fexp prec emax _ e' loc_Exact) as [mrs'' e''].
  destruct (shr_m mrs''); [reflexivity| |reflexivity].
  destruct (Z.leb _ _); reflexivity.
Qed.

Lemma ofZ_not_negative (n : Z) : (0 <= n)%Z -> SFltb (ofZ n) zero = false.
Proof.
  intros Hn. unfold ofZ, binary_normalize.
  destruct n as [|p|p]; [reflexivity| |lia].
  unfold binary_round.
  destruct (shl_align _ _ _) as [mz ez].
  apply binary_round_aux_not_negative.
Qed.

Lemma ofNat_not_negative (n : nat) : gt zero (ofNat n) = false.
Proof. unfold gt, ofNat. apply ofZ_not_negative. lia. Qed.

(** ** A line injection at line 1 *)

Lemma applyInjections_line1 (inj : Filament.injection) (lines : list string) :
  Filament.mode inj = "line" ->
  Filament.number inj = ofZ 1 ->
  Filament.applyInjections [inj] lines
  = Filament.injectionBlock "Line" inj ++ lines.
Proof.
  intros Hmode Hnum. unfold Filament.applyInjections.
  cbn [filter]. rewrite Hmode.
  change ("line" =? "layer")%string with false.
  change ("line" =? "line")%string with true.
  cbn [sort fold_right insertSorted fold_left].
  rewrite Hnum.
  change (sub (ofZ 1) (Filament.num 1)) with zero.
  change (lt zero (Filament.num 0)) with false.
  rewrite ofNat_not_negative. reflexivity.
Qed.

Lemma injectionBlock_length (kind : string) (inj : Filament.injection) :
  length (Filament.injectionBlock kind inj)
  = (2 + length (split "010" (Filament.gcode inj)))%nat.
Proof.
  unfold Filament.injectionBlock. simpl. rewrite length_app. simpl. lia.
Qed.

(** C9: a line-mode injection at line number 1 into an N-line stream puts
    the injected block (the open marker, the payload lines, the close
    marker: k lines in all) in front of the stream.  The result has N + k
    lines and the original first line is found k lines further down; run
    with this injection as the only directive, the pipeline hands out
    exactly these lines. *)
Theorem injection_at_line_1 (inj : Filament.injection) (lines : list string) :
  Filament.mode inj = "line" ->
  Filament.number inj = ofZ 1 ->
  let block := Filament.injectionBlock "Line" inj in
  let k := length block in
  let mutated := Filament.applyInjections [inj] lines in
  k = (2 + length (split "010" (Filament.gcode inj)))%nat
  /\ mutated = block ++ lines
  /\ length mutated = (length lines + k)%nat
  /\ mutated !! k = lines !! 0%nat
  /\ (forall (env : Filament.Env) (text : string),
        Filament.gcodeRawText env = Some text ->
        text <> EmptyString ->
        Filament.injections env = [inj] ->
        Spec.noDirectives (env <| Filament.injections := [] |>) ->
        lines = split "010" text ->
        Filament.applyAndDownload env = Filament.Modified (join "010" mutated)).
Proof.
  intros Hmode Hnum block k mutated.
  assert (E : mutated = block ++ lines)
    by (apply applyInjections_line1; assumption).
  split; [apply injectionBlock_length|].
  split; [exact E|].
  split; [rewrite E, length_app; fold k; lia|].
  split.
  { rewrite E. rewrite lookup_app_r by (fold k; lia).
    fold k. now rewrite Nat.sub_diag. }
  intros [doc raw analysis pauses injs] text Hraw Hne Hinj Hnone Hlines.
  unfold Spec.noDirectives in Hnone.
  cbn [apply_update constant Filament.gcodeRawText Filament.document
       Filament.layerPauses Filament.injections Filament.gcodeAnalysis]
    in Hnone, Hraw, Hinj.
  destruct Hnone as (Hs & Hf & Hn & Hb & Hp & _ & Hc & Hk & Hu).
  subst raw injs pauses.
  unfold Filament.applyAndDownload, Filament.applyAutoEject.
  cbn [Filament.gcodeRawText Filament.document Filament.layerPauses
       Filament.injections Filament.gcodeAnalysis].
  rewrite (isEmpty_false text Hne).
  unfold Filament.applySpeedOverride, Filament.applyTempTweak,
    Filament.applyFanOverride, Filament.num.
  rewrite Hs, Hf, Hn, Hb, Hc, Hk, Hu.
  cbn [andb negb Filament.applyLayerPauses].
  subst mutated lines. reflexivity.
Qed.

Lemma injection_at_line_1_witness :
  let inj := {| Filament.mode := "line"; Filament.number := ofZ 1;
                Filament.gcode := "M117 Start" |} in
  let lines := ["G28"; "G1 X10 Y10"] in
  Filament.mode inj = "line" /\ Filament.number inj = ofZ 1
  /\ Filament.applyInjections [inj] lines
     = ["; --- Custom Injection at Line 1 ---"; "M117 Start";
        "; --- End Custom Injection ---"; "G28"; "G1 X10 Y10"].
Proof.
  intros inj lines.
  split; [reflexivity|]. split; [reflexivity|].
  exact (proj1 (proj2 (injection_at_line_1 inj lines eq_refl eq_refl))).
Defined.

(** ** The speed override *)

Lemma append_cons (x : ascii) (a b : string) :
  (String x a ++ b = String x (a ++ b))%string.
Proof. reflexivity. Qed.

Lemma append_nil (b : string) : (EmptyString ++ b = b)%string.
Proof. reflexivity. Qed.

Lemma append_assoc (a b c : string) : ((a ++ b) ++ c = a ++ (b ++ c))%string.
Proof.
  induction a as [|x a IH]; [reflexivity|].
  rewrite !append_cons. now rewrite IH.
Qed.

Lemma span_value (p : ascii -> bool) (val post : string) :
  Spec.allChars p val = true ->
  match post with EmptyString => true | String c _ => negb (p c) end = true ->
  span p (val ++ post) = (val, post).
Proof.
  intros Hval Hpost. induction val as [|c val IH].
  - rewrite append_nil. destruct post as [|d post]; [reflexivity|].
    simpl. apply negb_true_iff in Hpost. now rewrite Hpost.
  - simpl in Hval. apply andb_true_iff in Hval as [Hc Hval].
    rewrite append_cons. simpl. rewrite Hc, (IH Hval). reflexivity.
Qed.

Lemma span_before (p : ascii -> bool) (k : ascii) (a b : string) :
  p k = false -> fst (span p (a ++ String k b)) = fst (span p a).
Proof.
  intros Hk. induction a as [|c a IH].
  - rewrite append_nil. simpl. now rewrite Hk.
  - rewrite append_cons. simpl. destruct (p c); [|reflexivity].
    destruct (span p (a ++ String k b)), (span p a). simpl in *. now f_equal.
Qed.

Section ReplaceEvery.
Variable key : ascii.
Variable f : string -> string.
Hypothesis Hkey : isDigitOrDot key = false.

Let R := Filament.replaceParam key true f.

Lemma replace_skips_value (val post : string) :
  Spec.allChars isDigitOrDot val = true ->
  Spec.endsValue post = true ->
  R true (val ++ post) = R false post.
Proof.
  intros Hval Hpost. induction val as [|c val IH].
  - rewrite append_nil. destruct post as [|d post]; [reflexivity|].
    simpl in Hpost. apply negb_true_iff in Hpost.
    unfold R; simpl. now rewrite Hpost.
  - simpl in Hval. apply andb_true_iff in Hval as [Hc Hval].
    rewrite append_cons. unfold R; simpl. rewrite Hc. simpl.
    now apply IH.
Qed.

Lemma replace_every (pre val post : string) :
  Spec.isValueText val = true ->
  Spec.endsValue post = true ->
  forall inMatch,
    R inMatch (pre ++ String key (val ++ post))
    = (R inMatch pre ++ f val ++ R false post)%string.
Proof.
  intros Hval Hpost.
  apply andb_true_iff in Hval as [Hne Hall].
  induction pre as [|c pre IH]; intros inMatch.
  - rewrite append_nil. unfold R; simpl. rewrite Hkey, andb_false_r.
    rewrite span_value by assumption. simpl.
    rewrite Ascii.eqb_refl, Hne. simpl.
    fold R. rewrite append_nil.
    now rewrite replace_skips_value.
  - rewrite append_cons. unfold R; simpl. fold R.
    destruct (inMatch && isDigitOrDot c); [apply IH|].
    rewrite andb_false_r.
    rewrite span_before by exact Hkey.
    destruct (Ascii.eqb c key && negb (isEmpty (fst (span isDigitOrDot pre)))).
    + rewrite IH. now rewrite append_assoc.
    + rewrite IH. now rewrite append_cons.
Qed.
End ReplaceEvery.

(** C5: at 100% the speed override returns every line, hence every
    feed-rate parameter, as it is.  At 50% it replaces the value of every
    feed-rate parameter of a motion line (an [F] followed by digits and
    dots) with half of it rounded to the nearest integer, and treats the
    text before and after the parameter likewise. *)
Theorem speed_override (doc : Filament.Document) (lines : list string) :
  (strictEq (parseInt (Filament.gc_speed_slider doc)) (ofZ 100) = true ->
   Filament.applySpeedOverride doc lines = lines)
  /\ (parseInt (Filament.gc_speed_slider doc) = ofZ 50 ->
      forall (i : nat) (pre val post : string),
        lines !! i = Some (pre ++ "F" ++ val ++ post)%string ->
        In (Filament.commandCode
              (Filament.stripComment (pre ++ "F" ++ val ++ post)%string))
           ["G0"; "G1"] ->
        Spec.isValueText val = true ->
        Spec.endsValue post = true ->
        Filament.applySpeedOverride doc lines !! i
        = Some (Spec.halveFeeds pre
                ++ "F" ++ toString (round (mul (parseFloat val) Spec.half))
                ++ Spec.halveFeeds post)%string).
Proof.
  split.
  - intros H100. unfold Filament.applySpeedOverride, Filament.num.
    now rewrite H100.
  - intros H50 i pre val post Hline Hcode Hval Hpost.
    unfold Filament.applySpeedOverride. rewrite H50.
    change (strictEq (ofZ 50) (Filament.num 100)) with false.
    change (div (ofZ 50) (Filament.num 100)) with Spec.half.
    cbv iota. rewrite lookup_map, Hline. simpl fmap. f_equal.
    destruct (isEmpty _) eqn:Hempty.
    { apply isEmpty_true in Hempty. rewrite Hempty in Hcode.
      simpl in Hcode. destruct Hcode as [H|[H|[]]]; discriminate. }
    assert (Hmove :
              negb (Filament.commandCode
                      (Filament.stripComment (pre ++ "F" ++ val ++ post))
                    =? "G0")%string
              && negb (Filament.commandCode
                         (Filament.stripComment (pre ++ "F" ++ val ++ post))
                       =? "G1")%string = false).
    { destruct Hcode as [H|[H|[]]]; rewrite <- H; simpl; reflexivity. }
    rewrite Hmove.
    change (pre ++ "F" ++ val ++ post)%string
      with (pre ++ String "F" (val ++ post))%string.
    rewrite (replace_every "F" _ eq_refl pre val post Hval Hpost false).
    reflexivity.
Qed.

(** ** The parser, line by line *)

Lemma loop_snoc (pre : list string) (rawLine : string) :
  GcodeParser.loop (pre ++ [rawLine])
  = GcodeParser.step (GcodeParser.loop pre) rawLine.
Proof. unfold GcodeParser.loop. now rewrite fold_left_app. Qed.

Lemma step_command (st : GcodeParser.state) (rawLine code : string)
    (params : gmap ascii number) :
  Spec.commandOf rawLine = Some (code, params) ->
  GcodeParser.step st rawLine
  = GcodeParser.modesAndTemperatures code params
      (if GcodeParser.isMove code then GcodeParser.movement params st else st).
Proof.
  unfold Spec.commandOf, GcodeParser.step. intros H.
  destruct (isEmpty _ || startsWith _ _); [discriminate|].
  now rewrite H.
Qed.

Lemma metadata_changes (line : string) (r : GcodeParser.result) :
  exists t l,
    GcodeParser.metadata line r
    = r <| GcodeParser.estimatedTime_min := t |>
        <| GcodeParser.filamentLength_mm := l |>.
Proof.
  unfold GcodeParser.metadata. destruct r.
  destruct (startsWith ";TIME:" line || _);
    [destruct (GcodeParser.matchDigits line);
       [destruct (includes "TIME:" line)|]|];
    (destruct (startsWith ";Filament used:" line || _);
       [destruct (GcodeParser.matchLength line)|]);
    do 2 eexists; cbv [apply_update constant]; reflexivity.
Qed.

Lemma step_comment (st : GcodeParser.state) (rawLine : string) :
  Spec.commandOf rawLine = None ->
  GcodeParser.vars (GcodeParser.step st rawLine) = GcodeParser.vars st
  /\ exists t l,
      GcodeParser.res (GcodeParser.step st rawLine)
      = (GcodeParser.res st) <| GcodeParser.estimatedTime_min := t |>
                             <| GcodeParser.filamentLength_mm := l |>.
Proof.
  unfold Spec.commandOf, GcodeParser.step. intros H.
  destruct (isEmpty _ || startsWith _ _).
  - split; [reflexivity|]. apply metadata_changes.
  - rewrite H. split; [reflexivity|]. destruct st as [[] v].
    do 2 eexists; cbv [apply_update constant]; reflexivity.
Qed.

(** What each block of the movement branch may change. *)

Lemma recordSpeed_changes (params : gmap ascii number) (st : GcodeParser.state) :
  GcodeParser.res (GcodeParser.recordSpeed params st) = GcodeParser.res st
  /\ exists sv,
      GcodeParser.vars (GcodeParser.recordSpeed params st)
      = (GcodeParser.vars st) <| GcodeParser.speedValues := sv |>.
Proof.
  unfold GcodeParser.recordSpeed. destruct st as [r []].
  destruct (params !! "F"%char) as [f|]; [destruct (truthy f)|];
    (split; [reflexivity | eexists; cbv [apply_update constant]; reflexivity]).
Qed.

Lemma recordHeight_changes (z : number) (st : GcodeParser.state) :
  (exists m,
      GcodeParser.res (GcodeParser.recordHeight z st)
      = (GcodeParser.res st) <| GcodeParser.maxZ := m |>)
  /\ exists cz lh,
      GcodeParser.vars (GcodeParser.recordHeight z st)
      = (GcodeParser.vars st) <| GcodeParser.currentZ := cz |>
                            <| GcodeParser.layerHeights := lh |>.
Proof.
  unfold GcodeParser.recordHeight. destruct st as [[] []].
  destruct (strictNe z _); [destruct (gt z _)|];
    (split; [eexists | do 2 eexists]; cbv [apply_update constant]; reflexivity).
Qed.

Lemma rememberPosition_res (x y z e : number) (st : GcodeParser.state) :
  GcodeParser.res (GcodeParser.rememberPosition x y z e st) = GcodeParser.res st.
Proof.
  unfold GcodeParser.rememberPosition. cbv zeta.
  match goal with |- context [if ?c then _ else _] => destruct c end;
    reflexivity.
Qed.

Lemma lt_zero_not_gt (a : number) : lt a (ofZ 0) = true -> gt a (ofZ 0) = false.
Proof.
  destruct a as [s|s| |s m e]; try discriminate; destruct s; try discriminate;
    reflexivity.
Qed.

(** The mode and temperature commands leave the move counters alone. *)
Lemma modes_changes (code : string) (params : gmap ascii number)
    (st : GcodeParser.state) :
  exists nt bt,
    GcodeParser.res (GcodeParser.modesAndTemperatures code params st)
    = (GcodeParser.res st) <| GcodeParser.nozzleTemp := nt |>
                         <| GcodeParser.bedTemp := bt |>.
Proof.
  unfold GcodeParser.modesAndTemperatures. destruct st as [[] v].
  destruct (code =? "M82")%string, (code =? "M83")%string,
    (params !! "E"%char), (code =? "G92")%string,
    ((code =? "M104")%string || (code =? "M109")%string),
    ((code =? "M140")%string || (code =? "M190")%string),
    (truthy (default NaN (params !! "S"%char)));
    do 2 eexists; cbv [apply_update constant]; reflexivity.
Qed.

Lemma movement_retraction (params : gmap ascii number) (st : GcodeParser.state) :
  is_Some (params !! "X"%char) \/ is_Some (params !! "Y"%char) ->
  let delta := Spec.extrusionDelta (GcodeParser.vars st) params in
  lt delta (ofZ 0) = true ->
  let r := GcodeParser.res st in
  let r' := GcodeParser.res (GcodeParser.movement params st) in
  GcodeParser.retractionCount r' = add (GcodeParser.retractionCount r) (ofZ 1)
  /\ GcodeParser.retractionDistance r'
     = add (GcodeParser.retractionDistance r) (abs delta)
  /\ GcodeParser.printMoves r' = GcodeParser.printMoves r
  /\ GcodeParser.travelDistance r' = GcodeParser.travelDistance r
  /\ GcodeParser.travelMoves r' = GcodeParser.travelMoves r.
Proof.
  intros Hxy delta Hneg r r'. subst r'.
  unfold GcodeParser.movement. cbv zeta. rewrite rememberPosition_res.
  set (x := match params !! "X"%char with Some a => a | None => _ end).
  set (y := match params !! "Y"%char with Some a => a | None => _ end).
  set (z := match params !! "Z"%char with Some a => a | None => _ end).
  set (e := match params !! "E"%char with Some a => a | None => _ end).
  destruct (recordSpeed_changes params st) as [Hr1 [sv Hv1]].
  destruct (recordHeight_changes z (GcodeParser.recordSpeed params st))
    as [[m Hr2] [cz [lh Hv2]]].
  set (st2 := GcodeParser.recordHeight z (GcodeParser.recordSpeed params st))
    in *.
  rewrite Hr1 in Hr2. rewrite Hv1 in Hv2. fold r in Hr2.
  unfold GcodeParser.recordMove.
  assert (Hb : bool_decide (is_Some (params !! "X"%char))
               || bool_decide (is_Some (params !! "Y"%char)) = true).
  { apply orb_true_iff.
    destruct Hxy; [left | right]; now apply bool_decide_eq_true. }
  rewrite Hb. cbv zeta.
  assert (Hd : (if GcodeParser.isAbsoluteE (GcodeParser.vars st2)
                then sub e (GcodeParser.currentE (GcodeParser.vars st2))
                else e) = delta).
  { rewrite Hv2. subst e delta. unfold Spec.extrusionDelta.
    destruct (GcodeParser.vars st). cbn.
    destruct (params !! "E"%char), isAbsoluteE; reflexivity. }
  rewrite Hd.
  pose proof (lt_zero_not_gt delta Hneg) as Hgt.
  change (ofZ 0) with (GcodeParser.num 0) in Hgt, Hneg.
  rewrite Hgt, Hneg.
  destruct st2 as [r2 v2]. cbn in Hr2. subst r2. destruct r.
  repeat split; reflexivity.
Qed.

(** C3: a motion line that carries an X or a Y parameter and whose
    extrusion delta, taken in the extrusion mode in force, is negative makes
    [parse] add one to [retractionCount] and the absolute value of the delta
    to [retractionDistance]; the line changes neither the print-move count
    nor [travelDistance] (nor the travel-move count). *)
Theorem retraction_classified (pre : list string) (rawLine code : string)
    (params : gmap ascii number) :
  Spec.commandOf rawLine = Some (code, params) ->
  GcodeParser.isMove code = true ->
  is_Some (params !! "X"%char) \/ is_Some (params !! "Y"%char) ->
  let before := GcodeParser.loop pre in
  let after := GcodeParser.loop (pre ++ [rawLine]) in
  let delta := Spec.extrusionDelta (GcodeParser.vars before) params in
  lt delta (ofZ 0) = true ->
  GcodeParser.retractionCount (GcodeParser.res after)
  = add (GcodeParser.retractionCount (GcodeParser.res before)) (ofZ 1)
  /\ GcodeParser.retractionDistance (GcodeParser.res after)
     = add (GcodeParser.retractionDistance (GcodeParser.res before)) (abs delta)
  /\ GcodeParser.printMoves (GcodeParser.res after)
     = GcodeParser.printMoves (GcodeParser.res before)
  /\ GcodeParser.travelDistance (GcodeParser.res after)
     = GcodeParser.travelDistance (GcodeParser.res before)
  /\ GcodeParser.travelMoves (GcodeParser.res after)
     = GcodeParser.travelMoves (GcodeParser.res before).
Proof.
  intros Hcmd Hmove Hxy before after delta Hneg.
  subst after. rewrite loop_snoc. fold before.
  rewrite (step_command before rawLine code params Hcmd), Hmove.
  destruct (modes_changes code params (GcodeParser.movement params before))
    as [nt [bt ->]].
  pose proof (movement_retraction params before Hxy Hneg) as H.
  cbv zeta in H. fold delta in H.
  destruct (GcodeParser.res (GcodeParser.movement params before)).
  exact H.
Qed.

Lemma retraction_classified_witness :
  let pre := ["M82"; "G1 X0 Y0 E5"] in
  let rawLine := "G1 X10 E3 ; pull back" in
  let params := GcodeParser.readParams ["X10"; "E3"] in
  let delta := Spec.extrusionDelta
                 (GcodeParser.vars (GcodeParser.loop pre)) params in
  Spec.commandOf rawLine = Some ("G1", params)
  /\ lt delta (ofZ 0) = true
  /\ GcodeParser.retractionCount
       (GcodeParser.res (GcodeParser.loop (pre ++ [rawLine])))
     = add (GcodeParser.retractionCount
              (GcodeParser.res (GcodeParser.loop pre))) (ofZ 1)
  /\ GcodeParser.printMoves
       (GcodeParser.res (GcodeParser.loop (pre ++ [rawLine])))
     = GcodeParser.printMoves (GcodeParser.res (GcodeParser.loop pre)).
Proof.
  intros pre rawLine params delta.
  assert (Hcmd : Spec.commandOf rawLine = Some ("G1", params))
    by (vm_compute; reflexivity).
  assert (Hneg : lt delta (ofZ 0) = true) by (vm_compute; reflexivity).
  assert (Hx : is_Some (params !! "X"%char) \/ is_Some (params !! "Y"%char))
    by (left; eexists; vm_compute; reflexivity).
  pose proof (retraction_classified pre rawLine "G1" params
                Hcmd eq_refl Hx Hneg) as (H1 & _ & H3 & _).
  repeat split; assumption.
Defined.

(** ** What the loop leaves alone *)







(** ** Post-processing and diagnostics *)

Lemma summarizeLayers_fields (heights : list number) (r : GcodeParser.result) :
  let r' := GcodeParser.summarizeLayers heights r in
  let hs := sort (fun a b => sub a b) heights in
  Spec.bedFields r' = Spec.bedFields r
  /\ GcodeParser.layerCount r' = ofNat (length hs)
  /\ GcodeParser.firstLayerHeight r'
     = (if (2 <=? length hs)%nat then nth 0 hs NaN
        else GcodeParser.firstLayerHeight r)
  /\ GcodeParser.layerHeight r'
     = (if (2 <=? length hs)%nat then GcodeParser.commonDiff hs
        else GcodeParser.layerHeight r).
Proof.
  unfold GcodeParser.summarizeLayers. cbv zeta. destruct r.
  destruct (2 <=? _)%nat; repeat split; reflexivity.
Qed.

Lemma summarizeSpeed_fields (speeds : list number) (r : GcodeParser.result) :
  Spec.bedFields (GcodeParser.summarizeSpeed speeds r) = Spec.bedFields r
  /\ Spec.layerFields (GcodeParser.summarizeSpeed speeds r) = Spec.layerFields r.
Proof.
  unfold GcodeParser.summarizeSpeed. destruct r, speeds; split; reflexivity.
Qed.

Lemma estimateWeight_fields (r : GcodeParser.result) :
  Spec.bedFields (GcodeParser.estimateWeight r) = Spec.bedFields r
  /\ Spec.layerFields (GcodeParser.estimateWeight r) = Spec.layerFields r.
Proof.
  unfold GcodeParser.estimateWeight. destruct r; cbn [GcodeParser.filamentLength_mm].
  destruct (gt _ _); split; reflexivity.
Qed.

Lemma normalizeMinima_fields (r : GcodeParser.result) :
  Spec.bedFields (GcodeParser.normalizeMinima r) = Spec.bedFields r
  /\ Spec.layerFields (GcodeParser.normalizeMinima r) = Spec.layerFields r.
Proof.
  unfold GcodeParser.normalizeMinima. cbv zeta.
  destruct r; cbn [GcodeParser.minX].
  destruct (strictEq minX Infinity);
    cbv [apply_update constant]; cbn [GcodeParser.minY];
    destruct (strictEq minY Infinity); split; reflexivity.
Qed.

Lemma measure_fields (r : GcodeParser.result) :
  Spec.bedFields (GcodeParser.measure r) = Spec.bedFields r
  /\ Spec.layerFields (GcodeParser.measure r) = Spec.layerFields r
  /\ is_Some (GcodeParser.dimensions (GcodeParser.measure r)).
Proof.
  unfold GcodeParser.measure. destruct r.
  repeat split; try reflexivity. eexists; reflexivity.
Qed.

Lemma postProcess_fields (st : GcodeParser.state) :
  let r := GcodeParser.postProcess st in
  let hs := sort (fun a b => sub a b)
              (GcodeParser.layerHeights (GcodeParser.vars st)) in
  Spec.bedFields r = Spec.bedFields (GcodeParser.res st)
  /\ is_Some (GcodeParser.dimensions r)
  /\ GcodeParser.layerCount r = ofNat (length hs)
  /\ GcodeParser.firstLayerHeight r
     = (if (2 <=? length hs)%nat then nth 0 hs NaN
        else GcodeParser.firstLayerHeight (GcodeParser.res st))
  /\ GcodeParser.layerHeight r
     = (if (2 <=? length hs)%nat then GcodeParser.commonDiff hs
        else GcodeParser.layerHeight (GcodeParser.res st)).
Proof.
  intros r hs. subst r. unfold GcodeParser.postProcess.
  set (r1 := GcodeParser.summarizeLayers _ (GcodeParser.res st)).
  set (r2 := GcodeParser.summarizeSpeed _ r1).
  set (r3 := GcodeParser.estimateWeight r2).
  set (r4 := GcodeParser.normalizeMinima r3).
  destruct (measure_fields r4) as (B5 & L5 & D5).
  destruct (normalizeMinima_fields r3) as (B4 & L4).
  destruct (estimateWeight_fields r2) as (B3 & L3).
  destruct (summarizeSpeed_fields
              (GcodeParser.speedValues (GcodeParser.vars st)) r1) as (B2 & L2).
  destruct (summarizeLayers_fields
              (GcodeParser.layerHeights (GcodeParser.vars st))
              (GcodeParser.res st)) as (B1 & C1 & F1 & H1).
  fold r1 in B1, C1, F1, H1. fold r2 in B2, L2, B3, L3.
  fold r3 in B3, L3, B4, L4. fold r4 in B4, L4, B5, L5, D5. fold hs in C1, F1, H1.
  assert (L : Spec.layerFields (GcodeParser.measure r4) = Spec.layerFields r1)
    by congruence.
  assert (Lc : GcodeParser.layerCount (GcodeParser.measure r4)
               = GcodeParser.layerCount r1)
    by exact (f_equal (fun t => fst (fst t)) L).
  assert (Lf : GcodeParser.firstLayerHeight (GcodeParser.measure r4)
               = GcodeParser.firstLayerHeight r1)
    by exact (f_equal (fun t => snd (fst t)) L).
  assert (Lh : GcodeParser.layerHeight (GcodeParser.measure r4)
               = GcodeParser.layerHeight r1)
    by exact (f_equal snd L).
  split; [congruence|]. split; [exact D5|].
  rewrite Lc, Lf, Lh. auto.
Qed.

Lemma rule_fields (cond : GcodeParser.result -> bool)
    (w : GcodeParser.result -> GcodeParser.diagnostic) (r : GcodeParser.result) :
  GcodeParser.rule cond w r
  = r <| GcodeParser.warnings :=
           GcodeParser.warnings r ++ (if cond r then [w r] else []) |>.
Proof.
  unfold GcodeParser.rule, GcodeParser.push.
  destruct (cond r); destruct r; cbv [apply_update constant]; cbn.
  - reflexivity.
  - now rewrite app_nil_r.
Qed.

(** A rule whose diagnostic is not an error adds no error. *)
Lemma rule_no_error (cond : GcodeParser.result -> bool)
    (w : GcodeParser.result -> GcodeParser.diagnostic) (r : GcodeParser.result) :
  (forall r0, Spec.isError (w r0) = false) ->
  exists ws,
    GcodeParser.rule cond w r = r <| GcodeParser.warnings := ws |>
    /\ Spec.errorLevel ws = Spec.errorLevel (GcodeParser.warnings r).
Proof.
  intros Hw. rewrite rule_fields. eexists; split; [reflexivity|].
  unfold Spec.errorLevel. rewrite existsb_app.
  destruct (cond r); simpl; [rewrite Hw|]; now rewrite orb_false_r.
Qed.

Lemma set_warnings_twice (r : GcodeParser.result)
    (a b : list GcodeParser.diagnostic) :
  (r <| GcodeParser.warnings := a |>) <| GcodeParser.warnings := b |>
  = r <| GcodeParser.warnings := b |>.
Proof. destruct r; reflexivity. Qed.

Lemma warnings_set (r : GcodeParser.result) (a : list GcodeParser.diagnostic) :
  GcodeParser.warnings (r <| GcodeParser.warnings := a |>) = a.
Proof. destruct r; reflexivity. Qed.

Lemma detectWarnings_fields (r : GcodeParser.result) :
  is_Some (GcodeParser.dimensions r) ->
  let fires := strictEq (GcodeParser.bedTemp r) (ofZ 0)
               && gt (GcodeParser.printMoves r) (ofZ 100) in
  exists r' ws,
    GcodeParser._detectWarnings r = Some r'
    /\ r' = r <| GcodeParser.warnings :=
                   ws ++ (if fires then [Spec.noHeatedBedError] else []) |>
    /\ Spec.errorLevel ws = Spec.errorLevel (GcodeParser.warnings r).
Proof.
  intros [d Hd] fires. unfold GcodeParser._detectWarnings. rewrite Hd.
  destruct (rule_no_error
              (fun _ => lt (GcodeParser.x d) (ofDecimal false 4 (-1))
                        || lt (GcodeParser.y d) (ofDecimal false 4 (-1)))
              (fun _ => {| GcodeParser.lvl := GcodeParser.warning;
                           GcodeParser.message := "Very thin dimensions detected — may be too thin to print reliably." |})
              r (fun _ => eq_refl)) as [ws1 [E1 L1]].
  fold (GcodeParser.thinDimensions d) in E1. rewrite E1.
  unfold GcodeParser.highRetraction.
  match goal with |- context [GcodeParser.rule ?c ?w ?x] =>
    destruct (rule_no_error c w x (fun _ => eq_refl)) as [ws2 [E2 L2]] end.
  rewrite E2, set_warnings_twice.
  unfold GcodeParser.longPrint.
  match goal with |- context [GcodeParser.rule ?c ?w ?x] =>
    destruct (rule_no_error c w x (fun _ => eq_refl)) as [ws3 [E3 L3]] end.
  rewrite E3, set_warnings_twice.
  unfold GcodeParser.highNozzleTemp.
  match goal with |- context [GcodeParser.rule ?c ?w ?x] =>
    destruct (rule_no_error c w x (fun _ => eq_refl)) as [ws4 [E4 L4]] end.
  rewrite E4, set_warnings_twice.
  unfold GcodeParser.noHeatedBed. rewrite rule_fields, set_warnings_twice.
  exists (r <| GcodeParser.warnings :=
                 ws4 ++ (if fires then [Spec.noHeatedBedError] else []) |>), ws4.
  split; [|split; [reflexivity|]].
  - destruct r; reflexivity.
  - rewrite warnings_set in L2, L3, L4. congruence.
Qed.




(** ** The running maximum of the bed temperature *)















(** ** Counting the layers *)


Lemma SFeqb_refl (a : number) : Spec.isNaN a = false -> SFeqb a a = true.
Proof.
  unfold SFeqb. destruct a as [[]|[]| |[] m e]; try discriminate; try reflexivity;
    intros _; simpl; rewrite Z.compare_refl, Pos.compare_cont_refl; reflexivity.
Qed.

Lemma sameValueZero_refl (a : number) : sameValueZero a a = true.
Proof.
  destruct a as [s|s| |s m e] eqn:E; try reflexivity;
    unfold sameValueZero; rewrite <- E; apply SFeqb_refl; now subst.
Qed.

Lemma setAdd_member (v : number) (s : list number) :
  existsb (sameValueZero v) (setAdd v s) = true.
Proof.
  unfold setAdd. destruct (existsb _ s) eqn:H; [exact H|].
  rewrite existsb_app, H. simpl. rewrite orb_false_r.
  destruct v as [[]|?| |? ? ?]; try reflexivity; apply sameValueZero_refl.
Qed.

(** ** The distinct values of a list *)

Lemma SFeqb_sym (a b : number) : SFeqb a b = SFeqb b a.
Proof.
  unfold SFeqb.
  destruct a as [[]|[]| |[] ma ea], b as [[]|[]| |[] mb eb]; try reflexivity;
    simpl;
    change (Pos.compare_cont Eq mb ma) with (Pos.compare mb ma);
    change (Pos.compare_cont Eq ma mb) with (Pos.compare ma mb);
    rewrite (Z.compare_antisym ea eb), (Pos.compare_antisym ma mb);
    destruct (Z.compare ea eb), (Pos.compare ma mb); reflexivity.
Qed.

Lemma sameValueZero_sym (a b : number) : sameValueZero a b = sameValueZero b a.
Proof.
  destruct a as [?|?| |? ? ?] eqn:Ea, b as [?|?| |? ? ?] eqn:Eb;
    try reflexivity; unfold sameValueZero; apply SFeqb_sym.
Qed.

(** The value a set keeps for [v]: +0 for -0. *)
Lemma setAdd_In (v w : number) (s : list number) :
  In w (setAdd v s) ->
  In w s \/ (w = (if isNegZero v then zero else v)
             /\ existsb (sameValueZero v) s = false).
Proof.
  unfold setAdd. destruct (existsb (sameValueZero v) s); [now left|].
  intros H. apply in_app_iff in H as [H|[<-|[]]]; [now left | now right].
Qed.

Lemma sameValueZero_kept (v y : number) :
  sameValueZero y (if isNegZero v then zero else v) = sameValueZero y v.
Proof.
  destruct v as [[]|?| |? ? ?]; try reflexivity;
    destruct y as [[]|[]| |[] ? ?]; reflexivity.
Qed.

Lemma ForallOrdPairs_snoc {A : Type} (P : A -> A -> Prop) (s : list A) (x : A) :
  ForallOrdPairs P s -> Forall (fun y => P y x) s ->
  ForallOrdPairs P (s ++ [x]).
Proof.
  induction 1 as [|a s Ha Hs IH]; intros Hx; simpl.
  - constructor; constructor.
  - inversion Hx; subst. constructor.
    + apply Forall_app; split; [exact Ha | now constructor].
    + now apply IH.
Qed.

Lemma setAdd_distinct (v : number) (s : list number) :
  ForallOrdPairs (fun a b => sameValueZero a b = false) s ->
  ForallOrdPairs (fun a b => sameValueZero a b = false) (setAdd v s).
Proof.
  intros Hs. unfold setAdd.
  destruct (existsb (sameValueZero v) s) eqn:Hv; [exact Hs|].
  apply ForallOrdPairs_snoc; [exact Hs|].
  apply Forall_forall. intros y Hy.
  rewrite sameValueZero_kept, sameValueZero_sym.
  destruct (sameValueZero v y) eqn:E; [|reflexivity].
  assert (existsb (sameValueZero v) s = true)
    by (apply existsb_exists; now exists y).
  congruence.
Qed.

Lemma setAdd_keeps (v w : number) (s : list number) :
  existsb (sameValueZero v) s = true ->
  existsb (sameValueZero v) (setAdd w s) = true.
Proof.
  intros H. unfold setAdd. destruct (existsb (sameValueZero w) s); [exact H|].
  rewrite existsb_app, H. reflexivity.
Qed.

Section Distinct.
Let addAll (l s : list number) : list number :=
  fold_left (fun s v => setAdd v s) l s.

Lemma addAll_keeps (l : list number) :
  forall s v,
    existsb (sameValueZero v) s = true ->
    existsb (sameValueZero v) (addAll l s) = true.
Proof.
  induction l as [|x l IH]; intros s v H; simpl; [exact H|].
  apply IH. now apply setAdd_keeps.
Qed.

Lemma addAll_member (l : list number) :
  forall s v, In v l -> existsb (sameValueZero v) (addAll l s) = true.
Proof.
  induction l as [|x l IH]; intros s v []; simpl.
  - subst. apply addAll_keeps, setAdd_member.
  - now apply IH.
Qed.

Lemma addAll_In (l : list number) :
  forall s w,
    In w (addAll l s) ->
    In w s \/ exists v, In v l /\ sameValueZero v w = true.
Proof.
  induction l as [|x l IH]; intros s w H; simpl in H; [now left|].
  destruct (IH _ _ H) as [Hs|[v [Hv Hvw]]].
  - apply setAdd_In in Hs as [Hs|[-> _]]; [now left|].
    right. exists x. split; [now left|].
    rewrite sameValueZero_kept. apply sameValueZero_refl.
  - right. exists v. split; [now right | exact Hvw].
Qed.

Lemma addAll_distinct (l : list number) :
  forall s,
    ForallOrdPairs (fun a b => sameValueZero a b = false) s ->
    ForallOrdPairs (fun a b => sameValueZero a b = false) (addAll l s).
Proof.
  induction l as [|x l IH]; intros s H; simpl; [exact H|].
  apply IH. now apply setAdd_distinct.
Qed.
End Distinct.

(** [Spec.distinct] keeps one representative of every value of the list
    and no two equal values. *)
Lemma distinct_sound (l : list number) :
  (forall v, In v l -> existsb (sameValueZero v) (Spec.distinct l) = true)
  /\ (forall w, In w (Spec.distinct l) ->
        exists v, In v l /\ sameValueZero v w = true)
  /\ ForallOrdPairs (fun a b => sameValueZero a b = false) (Spec.distinct l).
Proof.
  unfold Spec.distinct. repeat split.
  - intros v Hv. now apply addAll_member.
  - intros w Hw. destruct (addAll_In _ _ _ Hw) as [[]|H]; exact H.
  - apply addAll_distinct. constructor.
Qed.

(** The height registers after each block of the loop body. *)











(** ** The most common difference of heights *)










(** Sorting and enumerating commute with a change of the values. *)









(** A number is never written as the empty string. *)













(** ** The rewrites on a sample stream *)

Lemma speed_override_witness :
  let doc := Spec.neutralDocument <| Filament.gc_speed_slider := "50" |> in
  let lines := ["G1 X10 F1500 ; go"; "M104 S200"] in
  parseInt (Filament.gc_speed_slider doc) = ofZ 50
  /\ Filament.applySpeedOverride doc lines !! 0%nat = Some "G1 X10 F750 ; go".
Proof.
  intros doc lines.
  assert (H50 : parseInt (Filament.gc_speed_slider doc) = ofZ 50)
    by (vm_compute; reflexivity).
  split; [exact H50|].
  exact (proj2 (speed_override doc lines) H50 0%nat "G1 X10 " "1500" " ; go"
           eq_refl (or_intror (or_introl eq_refl)) eq_refl eq_refl).
Defined.

Lemma rewrites_keep_frame_witness :
  let doc := Spec.neutralDocument <| Filament.gc_speed_slider := "50" |>
                                  <| Filament.gc_temp_nozzle_offset := "5" |> in
  let lines := ["G1 X10 F1500"; "M104 S200"; "M106 S255"] in
  lines !! 2%nat = Some "M106 S255"
  /\ length (Filament.applySpeedOverride doc lines) = 3%nat
  /\ Filament.applySpeedOverride doc lines !! 2%nat = Some "M106 S255"
  /\ Filament.applyTempTweak doc lines !! 2%nat = Some "M106 S255".
Proof.
  intros doc lines.
  destruct (rewrites_keep_frame doc lines) as (L1 & _ & _ & H).
  destruct (H 2%nat "M106 S255" eq_refl) as (Hs & Ht & _).
  split; [reflexivity|]. split; [exact L1|]. split.
  - apply Hs. vm_compute. intros [E|[E|[]]]; discriminate E.
  - apply Ht. vm_compute. intros [E|[E|[E|[E|[]]]]]; discriminate E.
Defined.

(** ** Numbers: the integers below 2^53 are exact *)

Section SmallIntegers.
Local Open Scope Z_scope.

Lemma digits2_size (p : positive) : digits2_pos p = Pos.size p.
Proof. induction p; simpl; congruence. Qed.

Lemma Zdigits2_log2 (z : Z) : 0 < z -> Zdigits2 z = Z.log2 z + 1.
Proof.
  destruct z as [|p|p]; try lia. intros _. simpl.
  rewrite digits2_size. destruct p; simpl; lia.
Qed.

Lemma iter_pos_nat {A : Type} (f : A -> A) (p : positive) :
  forall x, iter_pos f p x = Nat.iter (Pos.to_nat p) f x.
Proof.
  induction p as [p IH|p IH|]; intros x; cbn [iter_pos].
  - rewrite !IH, Pos2Nat.inj_xI, <- Nat.iter_add, Nat.iter_swap.
    replace (2 * Pos.to_nat p)%nat with (Pos.to_nat p + Pos.to_nat p)%nat
      by lia.
    reflexivity.
  - rewrite !IH, Pos2Nat.inj_xO, <- Nat.iter_add.
    replace (2 * Pos.to_nat p)%nat with (Pos.to_nat p + Pos.to_nat p)%nat
      by lia.
    reflexivity.
  - reflexivity.
Qed.

Lemma shr_exact (k : nat) :
  forall w, 0 < w ->
    Nat.iter k shr_1 (Build_shr_record (w * 2 ^ Z.of_nat k) false false)
    = Build_shr_record w false false.
Proof.
  induction k as [|k IH]; intros w Hw.
  - simpl. f_equal. lia.
  - rewrite Nat.iter_succ_r.
    replace (w * 2 ^ Z.of_nat (S k)) with (2 * (w * 2 ^ Z.of_nat k)).
    2:{ rewrite Nat2Z.inj_succ, Z.pow_succ_r by lia. lia. }
    assert (Hp : 0 < w * 2 ^ Z.of_nat k) by (apply Z.mul_pos_pos; lia).
    destruct (w * 2 ^ Z.of_nat k) as [|q|q] eqn:E; try lia.
    change (2 * Z.pos q) with (Z.pos q~0). simpl shr_1. rewrite <- E.
    now apply IH.
Qed.

Lemma shr_fexp_exact (w : Z) (k : Z) (e : Z) :
  0 < w -> 0 <= k -> Z.log2 w = 52 -> -1074 <= e + k ->
  shr_fexp prec emax (w * 2 ^ k) e loc_Exact
  = (Build_shr_record w false false, e + k).
Proof.
  intros Hw Hk Hl He. unfold shr_fexp.
  assert (Hp : 0 < w * 2 ^ k) by (apply Z.mul_pos_pos; lia).
  rewrite Zdigits2_log2, Z.log2_mul_pow2 by lia.
  unfold fexp, emin, prec, emax. rewrite Hl.
  replace (Z.max (k + 52 + 1 + e - 53) (3 - 1024 - 53) - e) with k by lia.
  unfold shr, shr_record_of_loc.
  destruct k as [|p|p]; try lia.
  - rewrite Z.pow_0_r, Z.mul_1_r, Z.add_0_r. reflexivity.
  - rewrite iter_pos_nat. f_equal.
    rewrite <- (positive_nat_Z p). now apply shr_exact.
Qed.

(** A positive integer below 2^53, scaled by a power of two, rounds to
    itself, whatever the scale. *)
Lemma binary_round_scaled (s : bool) (q : positive) (z j : Z) :
  0 < z -> Z.log2 z < 53 -> 0 <= j -> Z.pos q = z * 2 ^ j ->
  binary_round prec emax s q (- j)
  = S754_finite s (Z.to_pos (z * 2 ^ (52 - Z.log2 z))) (Z.log2 z - 52).
Proof.
  intros Hz Hl Hj E.
  assert (H0 : 0 <= Z.log2 z) by apply Z.log2_nonneg.
  unfold binary_round.
  assert (Hd : Z.pos (digits2_pos q) = Z.log2 z + j + 1).
  { change (Z.pos (digits2_pos q)) with (Zdigits2 (Z.pos q)).
    rewrite Zdigits2_log2 by lia. rewrite E, Z.log2_mul_pow2 by lia. lia. }
  rewrite Hd. unfold fexp, emin, prec, emax.
  replace (Z.max (Z.log2 z + j + 1 + - j - 53) (3 - 1024 - 53))
    with (Z.log2 z - 52) by lia.
  set (w := z * 2 ^ (52 - Z.log2 z)).
  assert (Hw : 0 < w) by (apply Z.mul_pos_pos; lia).
  assert (Hlw : Z.log2 w = 52).
  { unfold w. rewrite Z.log2_mul_pow2 by lia. lia. }
  assert (Hround : forall k e, 0 <= k -> e + k = Z.log2 z - 52 ->
            binary_round_aux 53 1024 s (w * 2 ^ k) e loc_Exact
            = S754_finite s (Z.to_pos w) (Z.log2 z - 52)).
  { intros k e Hk He. unfold binary_round_aux.
    fold prec emax. rewrite (shr_fexp_exact w k e) by lia.
    cbn [shr_m loc_of_shr_record round_nearest_even].
    rewrite <- (Z.mul_1_r w) at 1. change 1 with (2 ^ 0).
    rewrite (shr_fexp_exact w 0 (e + k)) by lia.
    cbn [shr_m]. destruct w as [|pw|pw] eqn:Ew; try lia.
    unfold emax, prec. replace (e + k + 0) with (Z.log2 z - 52) by lia.
    destruct (Z.log2 z - 52 <=? 1024 - 53) eqn:L; [reflexivity|].
    apply Z.leb_gt in L. lia. }
  unfold shl_align.
  destruct (Z.log2 z - 52 - - j) as [|d|d] eqn:Ed.
  - replace (Z.pos q) with (w * 2 ^ 0); [apply Hround; lia|].
    rewrite E. unfold w. replace (52 - Z.log2 z) with j by lia. lia.
  - replace (Z.pos q) with (w * 2 ^ Z.pos d); [apply Hround; lia|].
    rewrite E. unfold w. rewrite <- Z.mul_assoc, <- Z.pow_add_r by lia.
    f_equal. f_equal. lia.
  - replace (Z.pos (Pos.iter xO q d)) with (w * 2 ^ 0); [apply Hround; lia|].
    change (Pos.iter xO q d) with (shift_pos d q).
    rewrite shift_pos_correct, Z.pow_pos_fold, E. unfold w.
    replace (52 - Z.log2 z) with (j + Z.pos d) by lia.
    rewrite Z.pow_add_r by lia. lia.
Qed.

Lemma normalize_scaled (z j : Z) (szero : bool) :
  z <> 0 -> Z.abs z < 2 ^ 53 -> 0 <= j ->
  binary_normalize prec emax (z * 2 ^ j) (- j) szero = Spec.ofSmall z.
Proof.
  intros Hz Hb Hj.
  assert (Hl : Z.log2 (Z.abs z) < 53) by (apply Z.log2_lt_pow2; lia).
  assert (Hp : 0 < 2 ^ j) by (apply Z.pow_pos_nonneg; lia).
  unfold binary_normalize, Spec.ofSmall.
  destruct (z * 2 ^ j) as [|q|q] eqn:E.
  - apply Z.mul_eq_0 in E. lia.
  - assert (0 < z) by nia.
    replace (z <? 0) with false by (symmetry; apply Z.ltb_ge; lia).
    rewrite Z.abs_eq in * by lia.
    apply binary_round_scaled; lia.
  - assert (z < 0) by nia.
    replace (z <? 0) with true by (symmetry; apply Z.ltb_lt; lia).
    apply binary_round_scaled; lia.
Qed.

Lemma ofZ_small (z : Z) : z <> 0 -> Z.abs z < 2 ^ 53 -> ofZ z = Spec.ofSmall z.
Proof.
  intros Hz Hb. unfold ofZ.
  rewrite <- (normalize_scaled z 0 false) by lia.
  f_equal. lia.
Qed.

Lemma ofSmall_mantissa (z : Z) :
  z <> 0 -> Z.abs z < 2 ^ 53 ->
  Z.pos (Z.to_pos (Z.abs z * 2 ^ (52 - Z.log2 (Z.abs z))))
  = Z.abs z * 2 ^ (52 - Z.log2 (Z.abs z)).
Proof.
  intros Hz Hb.
  assert (Hl : Z.log2 (Z.abs z) < 53) by (apply Z.log2_lt_pow2; lia).
  rewrite Z2Pos.id; [reflexivity|].
  apply Z.mul_pos_pos; [lia|]. apply Z.pow_pos_nonneg; lia.
Qed.

(** The mantissa a small integer takes when it is aligned to an
    exponent no greater than its own. *)
Lemma shl_align_small (z ez : Z) :
  z <> 0 -> Z.abs z < 2 ^ 53 -> ez <= Z.log2 (Z.abs z) - 52 ->
  Z.pos (fst (shl_align
                (Z.to_pos (Z.abs z * 2 ^ (52 - Z.log2 (Z.abs z))))
                (Z.log2 (Z.abs z) - 52) ez))
  = Z.abs z * 2 ^ (- ez).
Proof.
  intros Hz Hb He.
  assert (Hl : Z.log2 (Z.abs z) < 53) by (apply Z.log2_lt_pow2; lia).
  unfold shl_align.
  destruct (ez - (Z.log2 (Z.abs z) - 52)) as [|d|d] eqn:Ed; try lia.
  - cbn [fst]. rewrite ofSmall_mantissa by assumption.
    f_equal. f_equal. lia.
  - cbn [fst]. change (Pos.iter xO ?m d) with (shift_pos d m).
    rewrite shift_pos_correct, Z.pow_pos_fold, ofSmall_mantissa by assumption.
    replace (- ez) with (Z.pos d + (52 - Z.log2 (Z.abs z))) by lia.
    rewrite Z.pow_add_r by lia. lia.
Qed.

Lemma cond_Zopp_abs (z : Z) (k : Z) :
  cond_Zopp (z <? 0) (Z.abs z * k) = z * k.
Proof.
  unfold cond_Zopp. destruct (Z.ltb_spec z 0); [rewrite Z.abs_neq | rewrite Z.abs_eq]; lia.
Qed.

(** Sums and differences of small integers are exact. *)
Lemma add_small (a b : Z) :
  Z.abs a < 2 ^ 53 -> Z.abs b < 2 ^ 53 -> Z.abs (a + b) < 2 ^ 53 ->
  add (ofZ a) (ofZ b) = ofZ (a + b).
Proof.
  intros Ha Hb Hs.
  destruct (Z.eq_dec a 0) as [->|Ha0].
  { destruct (Z.eq_dec b 0) as [->|Hb0]; [reflexivity|].
    rewrite Z.add_0_l, (ofZ_small b) by assumption. reflexivity. }
  destruct (Z.eq_dec b 0) as [->|Hb0].
  { rewrite Z.add_0_r, (ofZ_small a) by assumption. reflexivity. }
  rewrite (ofZ_small a), (ofZ_small b) by assumption.
  unfold add, SFadd, Spec.ofSmall. cbv zeta.
  set (ez := Z.min (Z.log2 (Z.abs a) - 52) (Z.log2 (Z.abs b) - 52)).
  assert (Hla : Z.log2 (Z.abs a) < 53) by (apply Z.log2_lt_pow2; lia).
  assert (Hlb : Z.log2 (Z.abs b) < 53) by (apply Z.log2_lt_pow2; lia).
  rewrite !shl_align_small by (try assumption; unfold ez; lia).
  rewrite !cond_Zopp_abs, <- Z.mul_add_distr_r.
  destruct (Z.eq_dec (a + b) 0) as [E|E].
  - rewrite E. reflexivity.
  - replace ez with (- - ez) at 2 by lia.
    rewrite normalize_scaled by (try assumption; unfold ez; lia).
    now rewrite ofZ_small.
Qed.

Lemma sub_small (a b : Z) :
  Z.abs a < 2 ^ 53 -> Z.abs b < 2 ^ 53 -> Z.abs (a - b) < 2 ^ 53 ->
  sub (ofZ a) (ofZ b) = ofZ (a - b).
Proof.
  intros Ha Hb Hs.
  destruct (Z.eq_dec b 0) as [->|Hb0].
  { rewrite Z.sub_0_r. destruct (Z.eq_dec a 0) as [->|Ha0]; [reflexivity|].
    rewrite (ofZ_small a) by assumption. reflexivity. }
  destruct (Z.eq_dec a 0) as [->|Ha0].
  { rewrite Z.sub_0_l, (ofZ_small b), (ofZ_small (- b)) by lia.
    unfold sub, SFsub, Spec.ofSmall. change (ofZ 0) with (S754_zero false).
    cbv iota. rewrite Z.abs_opp. f_equal.
    destruct (Z.ltb_spec b 0), (Z.ltb_spec (- b) 0); try reflexivity; lia. }
  rewrite (ofZ_small a), (ofZ_small b) by assumption.
  unfold sub, SFsub, Spec.ofSmall. cbv zeta.
  set (ez := Z.min (Z.log2 (Z.abs a) - 52) (Z.log2 (Z.abs b) - 52)).
  assert (Hla : Z.log2 (Z.abs a) < 53) by (apply Z.log2_lt_pow2; lia).
  assert (Hlb : Z.log2 (Z.abs b) < 53) by (apply Z.log2_lt_pow2; lia).
  rewrite !shl_align_small by (try assumption; unfold ez; lia).
  rewrite !cond_Zopp_abs, <- Z.mul_sub_distr_r.
  destruct (Z.eq_dec (a - b) 0) as [E|E].
  - rewrite E. reflexivity.
  - replace ez with (- - ez) at 2 by lia.
    rewrite normalize_scaled by (try assumption; unfold ez; lia).
    now rewrite ofZ_small.
Qed.

(** Small natural numbers compare as numbers the way they compare as
    integers. *)
Lemma compare_small (a b : Z) :
  0 <= a < 2 ^ 53 -> 0 <= b < 2 ^ 53 ->
  SFcompare (ofZ a) (ofZ b) = Some (a ?= b).
Proof.
  intros Ha Hb.
  destruct (Z.eq_dec a 0) as [->|Ha0]; destruct (Z.eq_dec b 0) as [->|Hb0].
  - reflexivity.
  - rewrite (ofZ_small b) by lia. unfold Spec.ofSmall. cbn.
    destruct (Z.ltb_spec b 0); [lia|]. destruct b; try lia. reflexivity.
  - rewrite (ofZ_small a) by lia. unfold Spec.ofSmall. cbn.
    destruct (Z.ltb_spec a 0); [lia|]. destruct a; try lia. reflexivity.
  - rewrite (ofZ_small a), (ofZ_small b) by lia. unfold Spec.ofSmall.
    destruct (Z.ltb_spec a 0); [lia|]. destruct (Z.ltb_spec b 0); [lia|].
    rewrite !Z.abs_eq by lia.
    assert (Hla : Z.log2 a < 53) by (apply Z.log2_lt_pow2; lia).
    assert (Hlb : Z.log2 b < 53) by (apply Z.log2_lt_pow2; lia).
    pose proof (Z.log2_spec a ltac:(lia)) as Sa.
    pose proof (Z.log2_spec b ltac:(lia)) as Sb.
    pose proof (Z.log2_nonneg a). pose proof (Z.log2_nonneg b).
    cbn [SFcompare]. f_equal.
    destruct (Z.compare_spec (Z.log2 a - 52) (Z.log2 b - 52)) as [E|E|E].
    + change (Pos.compare_cont Eq ?p ?q) with (Z.pos p ?= Z.pos q).
      pose proof (ofSmall_mantissa a) as Ma. pose proof (ofSmall_mantissa b) as Mb.
      rewrite !Z.abs_eq in Ma, Mb by lia. rewrite Ma, Mb by lia.
      replace (Z.log2 b) with (Z.log2 a) by lia.
      assert (Hk : 0 < 2 ^ (52 - Z.log2 a)) by (apply Z.pow_pos_nonneg; lia).
      destruct (Z.compare_spec a b) as [C|C|C].
      * subst b. apply Z.compare_refl.
      * apply Z.compare_lt_iff. nia.
      * apply Z.compare_gt_iff. nia.
    + symmetry. apply Z.compare_lt_iff.
      assert (2 ^ Z.succ (Z.log2 a) <= 2 ^ Z.log2 b)
        by (apply Z.pow_le_mono_r; lia).
      lia.
    + symmetry. apply Z.compare_gt_iff.
      assert (2 ^ Z.succ (Z.log2 b) <= 2 ^ Z.log2 a)
        by (apply Z.pow_le_mono_r; lia).
      lia.
Qed.

Lemma gt_small (a b : Z) :
  0 <= a < 2 ^ 53 -> 0 <= b < 2 ^ 53 -> gt (ofZ a) (ofZ b) = (b <? a).
Proof.
  intros Ha Hb. unfold gt, SFltb. rewrite compare_small by assumption.
  unfold Z.ltb. now destruct (b ?= a).
Qed.

Lemma truncZ_small (a : Z) : 0 <= a < 2 ^ 53 -> truncZ (ofZ a) = a.
Proof.
  intros Ha. destruct (Z.eq_dec a 0) as [->|Ha0]; [reflexivity|].
  rewrite ofZ_small by lia. unfold Spec.ofSmall, truncZ.
  destruct (Z.ltb_spec a 0); [lia|]. cbn [cond_Zopp].
  pose proof (ofSmall_mantissa a) as Ma. rewrite Ma by lia.
  rewrite !Z.abs_eq by lia.
  assert (Hla : Z.log2 a < 53) by (apply Z.log2_lt_pow2; lia).
  pose proof (Z.log2_nonneg a).
  destruct (Z.leb_spec 0 (Z.log2 a - 52)).
  - replace (Z.log2 a - 52) with 0 by lia.
    replace (52 - Z.log2 a) with 0 by lia. lia.
  - replace (- (Z.log2 a - 52)) with (52 - Z.log2 a) by lia.
    apply Z.div_mul. apply Z.pow_nonzero; lia.
Qed.

End SmallIntegers.
Lemma movement_classifies (params : gmap ascii number) (st : GcodeParser.state) :
  let v := GcodeParser.vars st in
  let r := GcodeParser.res st in
  let delta := Spec.extrusionDelta v params in
  let one := ofZ 1 in
  Spec.moveFields (GcodeParser.res (GcodeParser.movement params st))
  = if bool_decide (is_Some (params !! "X"%char))
       || bool_decide (is_Some (params !! "Y"%char))
    then
      if gt delta (ofZ 0) then
        (add (GcodeParser.printMoves r) one, GcodeParser.retractionCount r,
         GcodeParser.retractionDistance r, GcodeParser.travelMoves r,
         GcodeParser.travelDistance r)
      else if lt delta (ofZ 0) then
        (GcodeParser.printMoves r, add (GcodeParser.retractionCount r) one,
         add (GcodeParser.retractionDistance r) (abs delta),
         GcodeParser.travelMoves r, GcodeParser.travelDistance r)
      else
        (GcodeParser.printMoves r, GcodeParser.retractionCount r,
         GcodeParser.retractionDistance r,
         add (GcodeParser.travelMoves r) one,
         add (GcodeParser.travelDistance r) (Spec.planarDistance v params))
    else Spec.moveFields r.
Proof.
  intros v r delta one. subst v.
  unfold GcodeParser.movement. cbv zeta. rewrite rememberPosition_res.
  set (x := match params !! "X"%char with Some a => a | None => _ end).
  set (y := match params !! "Y"%char with Some a => a | None => _ end).
  set (z := match params !! "Z"%char with Some a => a | None => _ end).
  set (e := match params !! "E"%char with Some a => a | None => _ end).
  destruct (recordSpeed_changes params st) as [Hr1 [sv Hv1]].
  destruct (recordHeight_changes z (GcodeParser.recordSpeed params st))
    as [[m Hr2] [cz [lh Hv2]]].
  set (st2 := GcodeParser.recordHeight z (GcodeParser.recordSpeed params st))
    in *.
  rewrite Hr1 in Hr2. rewrite Hv1 in Hv2. fold r in Hr2.
  unfold GcodeParser.recordMove.
  destruct (bool_decide (is_Some (params !! "X"%char))
            || bool_decide (is_Some (params !! "Y"%char))).
  - cbv zeta.
    assert (Hd : (if GcodeParser.isAbsoluteE (GcodeParser.vars st2)
                  then sub e (GcodeParser.currentE (GcodeParser.vars st2))
                  else e) = delta).
    { rewrite Hv2. subst e delta. unfold Spec.extrusionDelta.
      destruct (GcodeParser.vars st). cbn.
      destruct (params !! "E"%char), isAbsoluteE; reflexivity. }
    rewrite Hd.
    assert (Hdist : sqrt (add (mul (sub x (GcodeParser.lastX (GcodeParser.vars st2)))
                                   (sub x (GcodeParser.lastX (GcodeParser.vars st2))))
                              (mul (sub y (GcodeParser.lastY (GcodeParser.vars st2)))
                                   (sub y (GcodeParser.lastY (GcodeParser.vars st2)))))
                    = Spec.planarDistance (GcodeParser.vars st) params).
    { rewrite Hv2. unfold Spec.planarDistance. subst x y.
      destruct (GcodeParser.vars st). cbn.
      destruct (params !! "X"%char), (params !! "Y"%char); reflexivity. }
    rewrite Hdist.
    change (GcodeParser.num 0) with (ofZ 0).
    destruct st2 as [r2 v2]. cbn in Hr2. subst r2.
    destruct (gt delta (ofZ 0)); [|destruct (lt delta (ofZ 0))];
      destruct r; reflexivity.
  - destruct st2 as [r2 v2]. cbn in Hr2. subst r2. destruct r. reflexivity.
Qed.

Lemma step_moveFields (st : GcodeParser.state) (rawLine : string) :
  Spec.moveFields (GcodeParser.res (GcodeParser.step st rawLine))
  = match Spec.commandOf rawLine with
    | Some (code, params) =>
        if GcodeParser.isMove code
        then Spec.moveFields (GcodeParser.res (GcodeParser.movement params st))
        else Spec.moveFields (GcodeParser.res st)
    | None => Spec.moveFields (GcodeParser.res st)
    end.
Proof.
  destruct (Spec.commandOf rawLine) as [[code params]|] eqn:Hcmd.
  - rewrite (step_command st rawLine code params Hcmd).
    destruct (modes_changes code params
                (if GcodeParser.isMove code
                 then GcodeParser.movement params st else st))
      as [nt [bt ->]].
    destruct (GcodeParser.isMove code);
      match goal with |- context [GcodeParser.res ?s] =>
        destruct (GcodeParser.res s) end; reflexivity.
  - destruct (step_comment st rawLine Hcmd) as [_ [t [l ->]]].
    destruct (GcodeParser.res st). reflexivity.
Qed.

Lemma sub_self_sign (c : number) :
  gt (sub c c) (ofZ 0) = false /\ lt (sub c c) (ofZ 0) = false.
Proof.
  destruct c as [s|s| |s m e]; try (destruct s; split; reflexivity);
    [split; reflexivity|].
  unfold sub, SFsub. cbv zeta. rewrite Z.sub_diag. split; reflexivity.
Qed.
(** ** What the post-processing keeps *)

Lemma summarizeLayers_loopFields (heights : list number)
    (r : GcodeParser.result) :
  Spec.loopFields (GcodeParser.summarizeLayers heights r) = Spec.loopFields r.
Proof.
  unfold GcodeParser.summarizeLayers. cbv zeta. destruct r.
  destruct (2 <=? _)%nat; reflexivity.
Qed.

Lemma summarizeSpeed_loopFields (speeds : list number)
    (r : GcodeParser.result) :
  Spec.loopFields (GcodeParser.summarizeSpeed speeds r) = Spec.loopFields r.
Proof. unfold GcodeParser.summarizeSpeed. destruct r, speeds; reflexivity. Qed.

Lemma estimateWeight_loopFields (r : GcodeParser.result) :
  Spec.loopFields (GcodeParser.estimateWeight r) = Spec.loopFields r.
Proof.
  unfold GcodeParser.estimateWeight.
  destruct r; cbn [GcodeParser.filamentLength_mm].
  destruct (gt _ _); reflexivity.
Qed.

Lemma normalizeMinima_loopFields (r : GcodeParser.result) :
  Spec.loopFields (GcodeParser.normalizeMinima r) = Spec.loopFields r.
Proof.
  unfold GcodeParser.normalizeMinima. cbv zeta.
  destruct r; cbn [GcodeParser.minX].
  destruct (strictEq minX Infinity);
    cbv [apply_update constant]; cbn [GcodeParser.minY];
    destruct (strictEq minY Infinity); reflexivity.
Qed.

Lemma measure_loopFields (r : GcodeParser.result) :
  Spec.loopFields (GcodeParser.measure r) = Spec.loopFields r.
Proof. unfold GcodeParser.measure. destruct r. reflexivity. Qed.

Lemma postProcess_loopFields (st : GcodeParser.state) :
  Spec.loopFields (GcodeParser.postProcess st)
  = Spec.loopFields (GcodeParser.res st).
Proof.
  unfold GcodeParser.postProcess.
  now rewrite measure_loopFields, normalizeMinima_loopFields,
    estimateWeight_loopFields, summarizeSpeed_loopFields,
    summarizeLayers_loopFields.
Qed.

Lemma parse_loopFields (gcodeText : string) :
  Spec.loopFields (GcodeParser.parse gcodeText)
  = Spec.loopFields (GcodeParser.res (GcodeParser.loop (split "010" gcodeText))).
Proof.
  unfold GcodeParser.parse.
  set (st := GcodeParser.loop (split "010" gcodeText)).
  rewrite <- (postProcess_loopFields st).
  destruct (postProcess_fields st) as (_ & D & _).
  destruct (detectWarnings_fields (GcodeParser.postProcess st) D)
    as [r' [ws [-> [-> _]]]].
  destruct (GcodeParser.postProcess st). reflexivity.
Qed.

(** ** Every planar move is counted once *)

Lemma step_counters (st : GcodeParser.state) (rawLine : string) :
  let r := GcodeParser.res st in
  let one := ofZ 1 in
  let after := Spec.counters (GcodeParser.res (GcodeParser.step st rawLine)) in
  if Spec.planarMove rawLine then
    after = (add (GcodeParser.printMoves r) one, GcodeParser.retractionCount r,
             GcodeParser.travelMoves r)
    \/ after = (GcodeParser.printMoves r, add (GcodeParser.retractionCount r) one,
                GcodeParser.travelMoves r)
    \/ after = (GcodeParser.printMoves r, GcodeParser.retractionCount r,
                add (GcodeParser.travelMoves r) one)
  else after = Spec.counters r.
Proof.
  intros r one after. subst after.
  assert (H : forall a b : GcodeParser.result,
             Spec.moveFields a = Spec.moveFields b ->
             Spec.counters a = Spec.counters b).
  { intros [] [] E. unfold Spec.moveFields in E. cbn in E.
    unfold Spec.counters. cbn. congruence. }
  pose proof (step_moveFields st rawLine) as Hs.
  unfold Spec.planarMove.
  destruct (Spec.commandOf rawLine) as [[code params]|]; [|now apply H].
  destruct (GcodeParser.isMove code); [|now apply H].
  rewrite (movement_classifies params st) in Hs. cbn [andb].
  destruct (bool_decide _ || bool_decide _).
  - fold r in Hs.
    destruct (gt _ _); [|destruct (lt _ _)];
      [left | right; left | right; right];
      destruct (GcodeParser.res (GcodeParser.step st rawLine));
      unfold Spec.moveFields in Hs; cbn in Hs; unfold Spec.counters; cbn;
      congruence.
  - now apply H.
Qed.

Lemma succ_small (n : nat) :
  (Z.of_nat n < 2 ^ 53 - 1)%Z -> add (ofNat n) (ofZ 1) = ofNat (S n).
Proof.
  intros Hn. unfold ofNat. rewrite add_small by lia.
  f_equal. lia.
Qed.

Lemma loop_counts (lines : list string) :
  (Z.of_nat (length lines) < 2 ^ 53)%Z ->
  exists p r t : nat,
    Spec.counters (GcodeParser.res (GcodeParser.loop lines))
    = (ofNat p, ofNat r, ofNat t)
    /\ (p + r + t)%nat = length (filter Spec.planarMove lines).
Proof.
  induction lines as [|l lines IH] using rev_ind; intros Hlen.
  - exists 0%nat, 0%nat, 0%nat. split; reflexivity.
  - rewrite length_app in Hlen. cbn [length] in Hlen.
    destruct IH as (p & r & t & Hc & Hsum); [lia|].
    pose proof (filter_length_le Spec.planarMove lines) as Hle.
    rewrite loop_snoc, filter_app, length_app. cbn [filter].
    pose proof (step_counters (GcodeParser.loop lines) l) as Hs.
    cbv zeta in Hs.
    assert (Hp : GcodeParser.printMoves (GcodeParser.res (GcodeParser.loop lines))
                 = ofNat p) by exact (f_equal (fun c => fst (fst c)) Hc).
    assert (Hr : GcodeParser.retractionCount
                   (GcodeParser.res (GcodeParser.loop lines)) = ofNat r)
      by exact (f_equal (fun c => snd (fst c)) Hc).
    assert (Ht : GcodeParser.travelMoves
                   (GcodeParser.res (GcodeParser.loop lines)) = ofNat t)
      by exact (f_equal snd Hc).
    rewrite Hp, Hr, Ht in Hs.
    destruct (Spec.planarMove l).
    + rewrite !succ_small in Hs by lia.
      destruct Hs as [Hs|[Hs|Hs]]; rewrite Hs;
        [exists (S p), r, t | exists p, (S r), t | exists p, r, (S t)];
        (split; [reflexivity | cbn [length]; lia]).
    + exists p, r, t. rewrite Hs, Hc. split; [reflexivity | cbn [length]; lia].
Qed.

(** X1: the three counters of [parse] partition the planar moves: on a
    stream of fewer than 2^53 lines, [printMoves], [retractionCount] and
    [travelMoves] are whole numbers whose sum is the number of motion
    commands that carry an X or a Y parameter. *)
Theorem planar_moves_partition (gcodeText : string) :
  let lines := split "010" gcodeText in
  let r := GcodeParser.parse gcodeText in
  (Z.of_nat (length lines) < 2 ^ 53)%Z ->
  exists p c t : nat,
    GcodeParser.printMoves r = ofNat p
    /\ GcodeParser.retractionCount r = ofNat c
    /\ GcodeParser.travelMoves r = ofNat t
    /\ (p + c + t)%nat = length (filter Spec.planarMove lines).
Proof.
  intros lines r Hlen.
  destruct (loop_counts lines Hlen) as (p & c & t & Hc & Hsum).
  exists p, c, t.
  pose proof (parse_loopFields gcodeText) as Hk. fold lines r in Hk.
  assert (Hm : Spec.moveFields r
               = Spec.moveFields (GcodeParser.res (GcodeParser.loop lines)))
    by exact (f_equal snd Hk).
  unfold Spec.moveFields in Hm. unfold Spec.counters in Hc.
  repeat split; try exact Hsum; congruence.
Qed.

Lemma planar_moves_partition_witness :
  let text := "M83
G1 X10 Y10 E1
G1 X20 E-2
G0 X0 Y0
G1 Z5
M104 S200" in
  (Z.of_nat (length (split "010" text)) < 2 ^ 53)%Z
  /\ length (filter Spec.planarMove (split "010" text)) = 3%nat
  /\ exists p c t : nat,
       GcodeParser.printMoves (GcodeParser.parse text) = ofNat p
       /\ GcodeParser.retractionCount (GcodeParser.parse text) = ofNat c
       /\ GcodeParser.travelMoves (GcodeParser.parse text) = ofNat t
       /\ (p + c + t)%nat = length (filter Spec.planarMove (split "010" text)).
Proof.
  split; [vm_compute; reflexivity|].
  split; [vm_compute; reflexivity|].
  apply (planar_moves_partition "M83
G1 X10 Y10 E1
G1 X20 E-2
G0 X0 Y0
G1 Z5
M104 S200").
  vm_compute. reflexivity.
Defined.

(** X2: a motion command with an X or a Y parameter and no E parameter
    is a travel move, whatever the extrusion mode and the registers: it
    adds one to [travelMoves] and the distance covered in the plane to
    [travelDistance], and changes neither [printMoves] nor the
    retractions. *)
Theorem travel_without_extrusion (pre : list string) (rawLine code : string)
    (params : gmap ascii number) :
  Spec.commandOf rawLine = Some (code, params) ->
  GcodeParser.isMove code = true ->
  is_Some (params !! "X"%char) \/ is_Some (params !! "Y"%char) ->
  params !! "E"%char = None ->
  let before := GcodeParser.loop pre in
  let after := GcodeParser.loop (pre ++ [rawLine]) in
  GcodeParser.travelMoves (GcodeParser.res after)
  = add (GcodeParser.travelMoves (GcodeParser.res before)) (ofZ 1)
  /\ GcodeParser.travelDistance (GcodeParser.res after)
     = add (GcodeParser.travelDistance (GcodeParser.res before))
           (Spec.planarDistance (GcodeParser.vars before) params)
  /\ GcodeParser.printMoves (GcodeParser.res after)
     = GcodeParser.printMoves (GcodeParser.res before)
  /\ GcodeParser.retractionCount (GcodeParser.res after)
     = GcodeParser.retractionCount (GcodeParser.res before)
  /\ GcodeParser.retractionDistance (GcodeParser.res after)
     = GcodeParser.retractionDistance (GcodeParser.res before).
Proof.
  intros Hcmd Hmove Hxy He before after. subst after.
  rewrite loop_snoc. fold before.
  pose proof (step_moveFields before rawLine) as Hs.
  rewrite Hcmd, Hmove, (movement_classifies params before) in Hs.
  assert (Hb : bool_decide (is_Some (params !! "X"%char))
               || bool_decide (is_Some (params !! "Y"%char)) = true).
  { apply orb_true_iff.
    destruct Hxy; [left | right]; now apply bool_decide_eq_true. }
  rewrite Hb in Hs.
  assert (Hd : gt (Spec.extrusionDelta (GcodeParser.vars before) params) (ofZ 0)
               = false
               /\ lt (Spec.extrusionDelta (GcodeParser.vars before) params) (ofZ 0)
                  = false).
  { unfold Spec.extrusionDelta. rewrite He.
    destruct (GcodeParser.isAbsoluteE _); [apply sub_self_sign|].
    split; reflexivity. }
  destruct Hd as [Hg Hl]. rewrite Hg, Hl in Hs.
  destruct (GcodeParser.res (GcodeParser.step before rawLine)).
  unfold Spec.moveFields in Hs. cbn in Hs. cbn. 
  repeat split; congruence.
Qed.

Lemma travel_without_extrusion_witness :
  let pre := ["G1 X0 Y0 E5"] in
  let rawLine := "G0 X3 Y4 F9000" in
  let params := GcodeParser.readParams ["X3"; "Y4"; "F9000"] in
  Spec.commandOf rawLine = Some ("G0", params)
  /\ Spec.planarDistance (GcodeParser.vars (GcodeParser.loop pre)) params = ofZ 5
  /\ GcodeParser.travelMoves
       (GcodeParser.res (GcodeParser.loop (pre ++ [rawLine])))
     = add (GcodeParser.travelMoves (GcodeParser.res (GcodeParser.loop pre)))
           (ofZ 1)
  /\ GcodeParser.travelDistance
       (GcodeParser.res (GcodeParser.loop (pre ++ [rawLine])))
     = add (GcodeParser.travelDistance (GcodeParser.res (GcodeParser.loop pre)))
           (Spec.planarDistance (GcodeParser.vars (GcodeParser.loop pre)) params).
Proof.
  assert (Hcmd : Spec.commandOf "G0 X3 Y4 F9000"
                 = Some ("G0", GcodeParser.readParams ["X3"; "Y4"; "F9000"]))
    by (vm_compute; reflexivity).
  split; [exact Hcmd|]. split; [vm_compute; reflexivity|].
  pose proof (travel_without_extrusion ["G1 X0 Y0 E5"] "G0 X3 Y4 F9000" "G0"
                (GcodeParser.readParams ["X3"; "Y4"; "F9000"]) Hcmd eq_refl) as H.
  destruct H as (H1 & H2 & _).
  - left. vm_compute. eexists; reflexivity.
  - vm_compute. reflexivity.
  - split; [exact H1 | exact H2].
Defined.
